(** * mssql_mcp_server.utils: identifier validation and configuration
      resolution

    A shallow embedding of [src/mssql_mcp_server/utils.py].

    - Python [str] values are modelled as [string]: sequences of code
      points below 256 (the Latin-1 range).
    - [os.environ] is a finite map from names to strings, read after the
      settings file has been merged into it.
    - The configuration [dict] is a finite map from keys to Python values.
    - Calls on the module logger and raised exceptions are explicit: a
      computation yields the log records it emitted and either a value or
      the exception it raised. *)

From Stdlib Require Import ZArith Bool Lia Ascii.
From stdpp Require Import gmap strings list fin_maps pretty.

Local Open Scope Z_scope.

(** ** Characters and strings *)

Module Str.

Definition code (c : ascii) : N := N_of_ascii c.

Definition in_range (lo hi c : ascii) : bool :=
  (code lo <=? code c)%N && (code c <=? code hi)%N.

(** The line feed, written [\n] in the source language. *)
Definition LF : ascii := ascii_of_N 10.

Definition is_empty (s : string) : bool :=
  match s with EmptyString => true | String _ _ => false end.

Fixpoint all (p : ascii -> bool) (s : string) : bool :=
  match s with
  | EmptyString => true
  | String c s' => p c && all p s'
  end.

(** [s.startswith(pre)] *)
Fixpoint startswith (s pre : string) {struct pre} : bool :=
  match pre, s with
  | EmptyString, _ => true
  | String p pre', String c s' => if Stdlib.Strings.Ascii.eqb p c then startswith s' pre' else false
  | String _ _, EmptyString => false
  end.

(** [needle in hay] *)
Fixpoint contains (hay needle : string) : bool :=
  startswith hay needle ||
  match hay with
  | EmptyString => false
  | String _ hay' => contains hay' needle
  end.

(** [s.replace(old, new)] for a non-empty [old]: every occurrence of
    [old], found left to right and not overlapping an earlier one, is
    replaced.  [skip] counts the characters of an occurrence still to
    be dropped. *)
Fixpoint replace_from (old new : string) (skip : nat) (s : string) : string :=
  match s with
  | EmptyString => EmptyString
  | String c s' =>
      match skip with
      | S k => replace_from old new k s'
      | O =>
          if startswith s old
          then new +:+ replace_from old new (String.length old - 1) s'
          else String c (replace_from old new 0 s')
      end
  end.

Definition replace (s old new : string) : string := replace_from old new 0 s.

(** [s.split(sep)] for a one-character separator. *)
Fixpoint split (sep : ascii) (s : string) : list string :=
  match s with
  | EmptyString => [EmptyString]
  | String c s' =>
      if Stdlib.Strings.Ascii.eqb c sep then EmptyString :: split sep s'
      else match split sep s' with
           | h :: t => String c h :: t
           | [] => [String c EmptyString]
           end
  end.

(** [str.lower] on one code point of the Latin-1 range: the ASCII
    capitals and the accented capitals U+00C0..U+00DE other than the
    multiplication sign U+00D7 move up by 32. *)
Definition lower_char (c : ascii) : ascii :=
  let n := code c in
  if ((65 <=? n) && (n <=? 90))%N then ascii_of_N (n + 32)
  else if ((192 <=? n) && (n <=? 222) && negb (n =? 215))%N then ascii_of_N (n + 32)
  else c.

Fixpoint lower (s : string) : string :=
  match s with
  | EmptyString => EmptyString
  | String c s' => String (lower_char c) (lower s')
  end.

End Str.

(** ** Regular expressions

    The fragment of the [re] syntax the module uses, with a backtracking
    matcher.  [re.match] anchors the pattern at position 0 and its result
    is only tested for truth, so the matcher answers whether some match
    exists. *)

Module Re.

(** One-character matchers: an escaped literal such as [\.] and a
    bracket expression made of ranges and single characters. *)
Inductive item :=
| Lit (c : ascii)
| Set_ (ranges : list (ascii * ascii)) (singles : list ascii).

Inductive regex :=
| Caret
| Dollar
| One (i : item)
| Plus (i : item)
| Seq (r1 r2 : regex)
| Opt (r : regex).

Definition item_ok (i : item) (c : ascii) : bool :=
  match i with
  | Lit d => Stdlib.Strings.Ascii.eqb d c
  | Set_ ranges singles =>
      existsb (fun r => Str.in_range (fst r) (snd r) c) ranges
      || existsb (fun d => Stdlib.Strings.Ascii.eqb d c) singles
  end.

(** [$] without the MULTILINE flag: at the end of the string, or just
    before a line feed that is the last character. *)
Definition at_end (s : string) : bool :=
  match s with
  | EmptyString => true
  | String c EmptyString => Stdlib.Strings.Ascii.eqb c Str.LF
  | _ => false
  end.

(** [i+] followed by the continuation [k]; greedy, longest first. *)
Fixpoint plus_k (i : item) (pos : nat) (s : string)
    (k : nat -> string -> bool) : bool :=
  match s with
  | EmptyString => false
  | String c s' => item_ok i c && (plus_k i (S pos) s' k || k (S pos) s')
  end.

Fixpoint run (r : regex) (pos : nat) (s : string)
    (k : nat -> string -> bool) : bool :=
  match r with
  | Caret => Nat.eqb pos 0 && k pos s
  | Dollar => at_end s && k pos s
  | One i =>
      match s with
      | EmptyString => false
      | String c s' => item_ok i c && k (S pos) s'
      end
  | Plus i => plus_k i pos s k
  | Seq r1 r2 => run r1 pos s (fun pos' s' => run r2 pos' s' k)
  | Opt r' => run r' pos s k || k pos s
  end.

(** Truth value of [re.match(r, s)]. *)
Definition matches (r : regex) (s : string) : bool :=
  run r 0 s (fun _ _ => true).

End Re.

(** ** Exceptions and results *)

Inductive exn :=
| ValueError (msg : string)
| KeyError (key : string)
| TypeError (msg : string).

Inductive result (A : Type) :=
| Ok (a : A)
| Raise (e : exn).
Arguments Ok {A} a.
Arguments Raise {A} e.

(** ** [validate_table_name] *)

(** [[a-zA-Z0-9_]] *)
Definition word_class : Re.item :=
  Re.Set_ [("a", "z"); ("A", "Z"); ("0", "9")]%char ["_"%char].

(** [^[a-zA-Z0-9_]+(\.[a-zA-Z0-9_]+)?$] *)
Definition table_name_re : Re.regex :=
  Re.Seq Re.Caret
    (Re.Seq (Re.Plus word_class)
       (Re.Seq (Re.Opt (Re.Seq (Re.One (Re.Lit "."%char)) (Re.Plus word_class)))
          Re.Dollar)).

Definition validate_table_name (table_name : string) : result string :=
  if negb (Re.matches table_name_re table_name)
  then Raise (ValueError ("Invalid table name: " +:+ table_name))
  else
    let parts := Str.split "."%char table_name in
    if Nat.eqb (length parts) 2
    then Ok ("[" +:+ nth 0 parts EmptyString +:+ "].[" +:+ nth 1 parts EmptyString +:+ "]")
    else Ok ("[" +:+ table_name +:+ "]").

(** ** Python values *)

Inductive pyval :=
| PNone
| PStr (s : string)
| PInt (z : Z)
| PBool (b : bool).

(** [bool(v)] *)
Definition truthy (v : pyval) : bool :=
  match v with
  | PNone => false
  | PStr s => negb (Str.is_empty s)
  | PInt z => negb (z =? 0)
  | PBool b => b
  end.

(** [str(True)], [str(False)] *)
Definition bool_str (b : bool) : string := if b then "True" else "False".

(** How a value is rendered inside an f-string. *)
Definition py_str (v : pyval) : string :=
  match v with
  | PNone => "None"
  | PStr s => s
  | PInt z => pretty z
  | PBool b => bool_str b
  end.

(** ** [int(s)] on a string

    Surrounding white space is dropped, one sign may lead, and the rest
    is a non-empty run of decimal digits in which single underscores may
    separate digits.  A literal with more digits than
    [int_max_str_digits] is refused like any other malformed one. *)

(** The white space [int] drops: the ASCII blanks (tab to carriage
    return, and the space) and, above ASCII, the next-line and no-break
    space characters. *)
Definition is_space (c : ascii) : bool :=
  let n := Str.code c in
  ((9 <=? n) && (n <=? 13) || (n =? 32) || (n =? 133) || (n =? 160))%N.

Fixpoint lstrip (s : string) : string :=
  match s with
  | EmptyString => EmptyString
  | String c s' => if is_space c then lstrip s' else s
  end.

Fixpoint rstrip (s : string) : string :=
  match s with
  | EmptyString => EmptyString
  | String c s' =>
      match rstrip s' with
      | EmptyString => if is_space c then EmptyString else String c EmptyString
      | r => String c r
      end
  end.

Definition digit_of (c : ascii) : option Z :=
  if Str.in_range "0" "9" c then Some (Z.of_N (Str.code c) - 48) else None.

(** [prev] tells whether the previous character was a digit: only then
    may an underscore or the end of the literal follow. *)
Fixpoint int_digits (acc : Z) (count : nat) (prev : bool) (s : string)
    : option (Z * nat) :=
  match s with
  | EmptyString => if prev then Some (acc, count) else None
  | String c s' =>
      match digit_of c with
      | Some d => int_digits (10 * acc + d) (S count) true s'
      | None =>
          if Stdlib.Strings.Ascii.eqb c "_" && prev
          then int_digits acc count false s'
          else None
      end
  end.

Definition int_max_str_digits : nat := 4300.

(** [None] stands for the [ValueError] that [int] raises. *)
Definition py_int (s : string) : option Z :=
  let s := rstrip (lstrip s) in
  let '(neg, body) :=
    match s with
    | String "-" r => (true, r)
    | String "+" r => (false, r)
    | _ => (false, s)
    end in
  match int_digits 0 0 false body with
  | Some (v, n) =>
      if Nat.ltb int_max_str_digits n then None
      else Some (if neg then - v else v)
  | None => None
  end.

(** ** Logging and exceptions as effects *)

Inductive level := INFO | WARNING | ERROR.

Definition log_record : Type := level * string.

(** A computation: the records it logged, in order, and its outcome. *)
Definition Eff (A : Type) : Type := list log_record * result A.

Definition ret {A} (a : A) : Eff A := ([], Ok a).

Definition raise {A} (e : exn) : Eff A := ([], Raise e).

Definition bind {A B} (m : Eff A) (f : A -> Eff B) : Eff B :=
  match m with
  | (l, Ok a) => let '(l', r) := f a in (l ++ l', r)
  | (l, Raise e) => (l, Raise e)
  end.

Definition emit (lvl : level) (msg : string) : Eff unit := ([(lvl, msg)], Ok tt).

Declare Scope eff_scope.
Delimit Scope eff_scope with eff.
Notation "x <- m ;; k" := (bind m (fun x => k))
  (at level 100, m at next level, right associativity) : eff_scope.
Notation "m ;; k" := (bind m (fun _ => k))
  (at level 100, right associativity) : eff_scope.

Definition logged {A} (m : Eff A) : list log_record := fst m.
Definition outcome {A} (m : Eff A) : result A := snd m.

(** ** The process environment and the configuration record *)

(** [os.getenv(name)] *)
Definition getenv (environ : gmap string string) (name : string) : pyval :=
  match environ !! name with
  | Some v => PStr v
  | None => PNone
  end.

(** [os.getenv(name, default)] with a string default *)
Definition getenv_or (environ : gmap string string) (name default : string) : string :=
  match environ !! name with
  | Some v => v
  | None => default
  end.

(** [d[key]] *)
Definition getitem (d : gmap string pyval) (key : string) : Eff pyval :=
  match d !! key with
  | Some v => ret v
  | None => raise (KeyError key)
  end.

(** [needle in v]: defined on strings only. *)
Definition py_in (needle : string) (v : pyval) : Eff bool :=
  match v with
  | PStr s => ret (Str.contains s needle)
  | _ => raise (TypeError "argument is not iterable")
  end.

(** [all(vs)] *)
Definition py_all (vs : list pyval) : bool := forallb truthy vs.

(** ** [get_db_config] *)

Definition localdb_prefix : string := "(localdb)\".

Definition azure_suffix : string := ".database.windows.net".

Definition missing_msg : string := "Missing required database configuration".

Section GetDbConfig.
Local Open Scope eff_scope.

Definition get_db_config (environ : gmap string string)
    : Eff (gmap string pyval) :=
  let server := getenv_or environ "MSSQL_SERVER" "localhost" in
  emit INFO ("MSSQL_SERVER environment variable: "
             +:+ getenv_or environ "MSSQL_SERVER" "NOT SET") ;;
  emit INFO ("Using server: " +:+ server) ;;
  server <-
    (if Str.startswith server localdb_prefix
     then
       let instance_name := Str.replace server localdb_prefix "" in
       let server := ".\" +:+ instance_name in
       emit INFO ("Detected LocalDB connection, converted to: " +:+ server) ;;
       ret server
     else ret server) ;;
  let config : gmap string pyval :=
    <["port" := PStr (getenv_or environ "MSSQL_PORT" "1433")]>
    (<["database" := getenv environ "MSSQL_DATABASE"]>
    (<["password" := getenv environ "MSSQL_PASSWORD"]>
    (<["user" := getenv environ "MSSQL_USER"]>
    (<["server" := PStr server]> ∅)))) in
  user <- getitem config "user" ;;
  emit INFO ("MSSQL_USER: " +:+ py_str user) ;;
  database <- getitem config "database" ;;
  emit INFO ("MSSQL_DATABASE: " +:+ py_str database) ;;
  password <- getitem config "password" ;;
  emit INFO ("MSSQL_PASSWORD: " +:+ (if truthy password then "SET" else "NOT SET")) ;;
  let port := getenv environ "MSSQL_PORT" in
  config <-
    (if truthy port
     then
       match py_int (py_str port) with
       | Some n => ret (<["port" := PInt n]> config)
       | None =>
           emit WARNING ("Invalid MSSQL_PORT value: " +:+ py_str port
                         +:+ ". Using default port.") ;;
           ret config
       end
     else ret config) ;;
  srv <- getitem config "server" ;;
  is_azure <-
    (if truthy srv
     then srv <- getitem config "server" ;; py_in azure_suffix srv
     else ret false) ;;
  config <-
    (if is_azure
     then
       let config := <["tds_version" := PStr "7.4"]> config in
       if String.eqb (Str.lower (getenv_or environ "MSSQL_ENCRYPT" "true")) "true"
       then ret (<["encrypt" := PBool true]> config)
       else ret config
     else
       let encrypt_str := getenv_or environ "MSSQL_ENCRYPT" "false" in
       ret (<["encrypt" := PBool (String.eqb (Str.lower encrypt_str) "true")]> config)) ;;
  let use_windows_auth :=
    String.eqb (Str.lower (getenv_or environ "MSSQL_WINDOWS_AUTH" "false")) "true" in
  if use_windows_auth
  then
    database <- getitem config "database" ;;
    (if negb (truthy database)
     then
       emit ERROR "MSSQL_DATABASE is required" ;;
       raise (ValueError missing_msg)
     else
       let config := delete "password" (delete "user" config) in
       emit INFO "Using Windows Authentication" ;;
       ret config)
  else
    user <- getitem config "user" ;;
    password <- getitem config "password" ;;
    database <- getitem config "database" ;;
    emit INFO ("Checking required vars: user=" +:+ bool_str (truthy user)
               +:+ ", password=" +:+ bool_str (truthy password)
               +:+ ", database=" +:+ bool_str (truthy database)) ;;
    (if negb (py_all [user; password; database])
     then
       emit ERROR "Missing required database configuration. Please check environment variables:" ;;
       emit ERROR "MSSQL_USER, MSSQL_PASSWORD, and MSSQL_DATABASE are required" ;;
       emit ERROR ("Current values: USER=" +:+ py_str user
                   +:+ ", DATABASE=" +:+ py_str database
                   +:+ ", PASSWORD=" +:+ (if truthy password then "***" else "None")) ;;
       raise (ValueError missing_msg)
     else ret config).

End GetDbConfig.

(** ** [get_command] *)

Definition get_command (environ : gmap string string) : string :=
  getenv_or environ "MSSQL_COMMAND" "execute_sql".

(** ** Resolution without the log

    What [get_db_config] leaves in the record, stage by stage, with the
    logging erased.  [get_db_config_outcome] below proves that the
    function computes exactly this. *)

(** The boolean reading of a flag of the environment. *)
Definition env_flag (environ : gmap string string) (name default : string) : bool :=
  String.eqb (Str.lower (getenv_or environ name default)) "true".

Definition resolved_server (environ : gmap string string) : string :=
  let server := getenv_or environ "MSSQL_SERVER" "localhost" in
  if Str.startswith server localdb_prefix
  then ".\" +:+ Str.replace server localdb_prefix ""
  else server.

Definition initial_config (environ : gmap string string) : gmap string pyval :=
  <["port" := PStr (getenv_or environ "MSSQL_PORT" "1433")]>
  (<["database" := getenv environ "MSSQL_DATABASE"]>
  (<["password" := getenv environ "MSSQL_PASSWORD"]>
  (<["user" := getenv environ "MSSQL_USER"]>
  (<["server" := PStr (resolved_server environ)]> ∅)))).

Definition with_port (environ : gmap string string) : gmap string pyval :=
  let port := getenv environ "MSSQL_PORT" in
  if truthy port
  then match py_int (py_str port) with
       | Some n => <["port" := PInt n]> (initial_config environ)
       | None => initial_config environ
       end
  else initial_config environ.

Definition with_encrypt (environ : gmap string string) : gmap string pyval :=
  if Str.contains (resolved_server environ) azure_suffix
  then
    let config := <["tds_version" := PStr "7.4"]> (with_port environ) in
    if env_flag environ "MSSQL_ENCRYPT" "true"
    then <["encrypt" := PBool true]> config
    else config
  else
    <["encrypt" := PBool (env_flag environ "MSSQL_ENCRYPT" "false")]> (with_port environ).

Definition resolved (environ : gmap string string) : result (gmap string pyval) :=
  if env_flag environ "MSSQL_WINDOWS_AUTH" "false"
  then
    if truthy (getenv environ "MSSQL_DATABASE")
    then Ok (delete "password" (delete "user" (with_encrypt environ)))
    else Raise (ValueError missing_msg)
  else
    if py_all [getenv environ "MSSQL_USER"; getenv environ "MSSQL_PASSWORD";
               getenv environ "MSSQL_DATABASE"]
    then Ok (with_encrypt environ)
    else Raise (ValueError missing_msg).

(** ** Vocabulary of the specification

    The shapes the specification accepts, following its wording: a part
    is one or more ASCII letters, digits and underscores; an identifier
    is one part, or two parts joined by a dot. *)

Definition spec_word_char (c : ascii) : bool :=
  Str.in_range "a" "z" c || Str.in_range "A" "Z" c
  || Str.in_range "0" "9" c || Stdlib.Strings.Ascii.eqb c "_".

Definition spec_part (s : string) : bool :=
  negb (Str.is_empty s) && Str.all spec_word_char s.

(** Does [s] read [a.b] with both parts well formed?  The first
    character belongs to [a]; after it comes either the dot and [b], or
    the rest of [a]. *)
Fixpoint spec_dotted (s : string) : bool :=
  match s with
  | EmptyString => false
  | String c s' =>
      spec_word_char c &&
      (match s' with
       | String "." b => spec_part b
       | _ => false
       end || spec_dotted s')
  end.

Definition spec_shape (s : string) : bool :=
  spec_part s || spec_dotted s.

(** A variable counts as missing when it is absent or empty. *)
Definition is_missing (environ : gmap string string) (name : string) : bool :=
  match environ !! name with
  | None => true
  | Some v => Str.is_empty v
  end.

(** The variables of SQL authentication that are missing. *)
Definition missing_fields (environ : gmap string string) : list string :=
  List.filter (is_missing environ) ["MSSQL_USER"; "MSSQL_PASSWORD"; "MSSQL_DATABASE"].

(** [s] without its first [n] characters. *)
Fixpoint drop_chars (n : nat) (s : string) : string :=
  match n, s with
  | S n', String _ s' => drop_chars n' s'
  | _, _ => s
  end.

(** Stripping a prefix: what follows [pre] when [s] starts with it. *)
Definition strip_prefix (s pre : string) : string :=
  if Str.startswith s pre then drop_chars (String.length pre) s else s.

(** The capital of a lower-case ASCII letter. *)
Definition upper_ascii (c : ascii) : ascii :=
  if Str.in_range "a" "z" c then ascii_of_N (Str.code c - 32) else c.

(** [v] spells [pattern] up to the case of its letters. *)
Fixpoint case_variant (pattern v : string) : bool :=
  match pattern, v with
  | EmptyString, EmptyString => true
  | String p pattern', String c v' =>
      (Stdlib.Strings.Ascii.eqb c p || Stdlib.Strings.Ascii.eqb c (upper_ascii p))
      && case_variant pattern' v'
  | _, _ => false
  end.

(** The record the error log gets when SQL authentication lacks a field. *)
Definition current_values (environ : gmap string string) : log_record :=
  (ERROR,
   "Current values: USER=" +:+ py_str (getenv environ "MSSQL_USER")
   +:+ ", DATABASE=" +:+ py_str (getenv environ "MSSQL_DATABASE")
   +:+ ", PASSWORD=" +:+ (if truthy (getenv environ "MSSQL_PASSWORD")
                          then "***" else "None")).

(** What a run under integrated authentication looks like from outside:
    only the database is required, and a record that comes back has
    neither credential key. *)
Definition runs_integrated_auth (environ : gmap string string) : Prop :=
  (is_missing environ "MSSQL_DATABASE" = true ->
     outcome (get_db_config environ) = Raise (ValueError missing_msg)) /\
  (is_missing environ "MSSQL_DATABASE" = false ->
     exists cfg, outcome (get_db_config environ) = Ok cfg
                 /\ cfg !! "user" = None /\ cfg !! "password" = None).

(** What a run under SQL authentication looks like from outside: user,
    password and database are required, and a record that comes back
    holds both credentials. *)
Definition runs_sql_auth (environ : gmap string string) : Prop :=
  (missing_fields environ <> [] ->
     outcome (get_db_config environ) = Raise (ValueError missing_msg)) /\
  (missing_fields environ = [] ->
     exists cfg, outcome (get_db_config environ) = Ok cfg
                 /\ cfg !! "user" = Some (getenv environ "MSSQL_USER")
                 /\ cfg !! "password" = Some (getenv environ "MSSQL_PASSWORD")).

(** ** Environments used as examples *)

Definition env_sql : gmap string string :=
  <["MSSQL_USER" := "u"]> (<["MSSQL_PASSWORD" := "p"]> (<["MSSQL_DATABASE" := "d"]> ∅)).

Definition env_no_user : gmap string string :=
  <["MSSQL_WINDOWS_AUTH" := "false"]>
    (<["MSSQL_PASSWORD" := "p"]> (<["MSSQL_DATABASE" := "d"]> ∅)).

Definition env_no_password : gmap string string :=
  <["MSSQL_WINDOWS_AUTH" := "false"]>
    (<["MSSQL_USER" := "u"]> (<["MSSQL_DATABASE" := "d"]> ∅)).

Definition env_windows : gmap string string :=
  <["MSSQL_WINDOWS_AUTH" := "true"]> (<["MSSQL_DATABASE" := "d"]> ∅).

Definition env_bad_port : gmap string string :=
  <["MSSQL_PORT" := "notanumber"]> env_sql.

Definition env_azure : gmap string string :=
  <["MSSQL_SERVER" := "foo.database.windows.net"]> env_sql.

Definition env_azure_plain : gmap string string :=
  <["MSSQL_ENCRYPT" := "false"]> env_azure.

Definition env_localdb : gmap string string :=
  <["MSSQL_SERVER" := "(localdb)\MSSQLLocalDB"]> env_sql.

Definition env_localdb_twice : gmap string string :=
  <["MSSQL_SERVER" := "(localdb)\a(localdb)\b"]> env_sql.

Definition env_flags : gmap string string :=
  <["MSSQL_WINDOWS_AUTH" := "TRUE"]> (<["MSSQL_ENCRYPT" := "yes"]> env_sql).

(** ** Vocabulary of the further properties *)

Definition is_bracket (c : ascii) : bool :=
  Stdlib.Strings.Ascii.eqb c "[" || Stdlib.Strings.Ascii.eqb c "]".

(** A quoted identifier with its square brackets taken away. *)
Fixpoint drop_brackets (s : string) : string :=
  match s with
  | EmptyString => EmptyString
  | String c s' =>
      if is_bracket c then drop_brackets s' else String c (drop_brackets s')
  end.

(** The characters a quoted identifier is made of. *)
Definition quoted_char (c : ascii) : bool :=
  spec_word_char c || is_bracket c
  || Stdlib.Strings.Ascii.eqb c "." || Stdlib.Strings.Ascii.eqb c Str.LF.

(** The variables [get_db_config] reads. *)
Definition config_variables : list string :=
  ["MSSQL_SERVER"; "MSSQL_USER"; "MSSQL_PASSWORD"; "MSSQL_DATABASE";
   "MSSQL_PORT"; "MSSQL_ENCRYPT"; "MSSQL_WINDOWS_AUTH"].

(** The log of [get_db_config], stage by stage; [get_db_config_logged]
    proves that the function emits exactly these records in this order. *)
Definition server_log (environ : gmap string string) : list log_record :=
  let server := getenv_or environ "MSSQL_SERVER" "localhost" in
  [(INFO, "MSSQL_SERVER environment variable: "
          +:+ getenv_or environ "MSSQL_SERVER" "NOT SET");
   (INFO, "Using server: " +:+ server)]
  ++ (if Str.startswith server localdb_prefix
      then [(INFO, "Detected LocalDB connection, converted to: "
                   +:+ resolved_server environ)]
      else []).

Definition values_log (environ : gmap string string) : list log_record :=
  [(INFO, "MSSQL_USER: " +:+ py_str (getenv environ "MSSQL_USER"));
   (INFO, "MSSQL_DATABASE: " +:+ py_str (getenv environ "MSSQL_DATABASE"));
   (INFO, "MSSQL_PASSWORD: "
          +:+ (if truthy (getenv environ "MSSQL_PASSWORD") then "SET" else "NOT SET"))].

Definition port_log (environ : gmap string string) : list log_record :=
  let port := getenv environ "MSSQL_PORT" in
  if truthy port
  then match py_int (py_str port) with
       | Some _ => []
       | None => [(WARNING, "Invalid MSSQL_PORT value: " +:+ py_str port
                            +:+ ". Using default port.")]
       end
  else [].

Definition auth_log (environ : gmap string string) : list log_record :=
  let user := getenv environ "MSSQL_USER" in
  let password := getenv environ "MSSQL_PASSWORD" in
  let database := getenv environ "MSSQL_DATABASE" in
  if env_flag environ "MSSQL_WINDOWS_AUTH" "false"
  then
    if truthy database
    then [(INFO, "Using Windows Authentication")]
    else [(ERROR, "MSSQL_DATABASE is required")]
  else
    (INFO, "Checking required vars: user=" +:+ bool_str (truthy user)
           +:+ ", password=" +:+ bool_str (truthy password)
           +:+ ", database=" +:+ bool_str (truthy database))
    :: (if py_all [user; password; database]
        then []
        else [(ERROR, "Missing required database configuration. Please check environment variables:");
              (ERROR, "MSSQL_USER, MSSQL_PASSWORD, and MSSQL_DATABASE are required");
              current_values environ]).

Definition resolved_log (environ : gmap string string) : list log_record :=
  server_log environ ++ values_log environ ++ port_log environ ++ auth_log environ.

(** * Properties *)

Example validate_users : validate_table_name "users" = Ok "[users]".
Proof. reflexivity. Qed.

Example validate_dbo_users : validate_table_name "dbo.users" = Ok "[dbo].[users]".
Proof. reflexivity. Qed.

Example validate_drop :
  validate_table_name "users; DROP TABLE x" =
  Raise (ValueError "Invalid table name: users; DROP TABLE x").
Proof. reflexivity. Qed.

Example validate_three_parts :
  validate_table_name "a.b.c" = Raise (ValueError "Invalid table name: a.b.c").
Proof. reflexivity. Qed.

Example validate_empty :
  validate_table_name "" = Raise (ValueError "Invalid table name: ").
Proof. reflexivity. Qed.

(** ** Strings *)

Lemma app_cons (c : ascii) (a b : string) : String c a +:+ b = String c (a +:+ b).
Proof. reflexivity. Qed.

Lemma app_empty_l (a : string) : "" +:+ a = a.
Proof. reflexivity. Qed.

Lemma app_empty_r (a : string) : a +:+ "" = a.
Proof. induction a as [|c a IH]; [reflexivity|]. rewrite app_cons. by f_equal. Qed.

Lemma app_assoc_str (a b c : string) : (a +:+ b) +:+ c = a +:+ (b +:+ c).
Proof. induction a as [|x a IH]; [reflexivity|]. rewrite !app_cons. by f_equal. Qed.

Lemma all_app (p : ascii -> bool) (a b : string) :
  Str.all p (a +:+ b) = Str.all p a && Str.all p b.
Proof.
  induction a as [|c a IH]; [reflexivity|].
  rewrite app_cons. simpl. rewrite IH. by rewrite andb_assoc.
Qed.

Lemma all_impl (p q : ascii -> bool) (s : string) :
  (forall c, p c = true -> q c = true) -> Str.all p s = true -> Str.all q s = true.
Proof.
  intros Hpq. induction s as [|c s IH]; [done|]. simpl.
  intros [Hc Hs]%andb_true_iff. rewrite (Hpq _ Hc). simpl. auto.
Qed.

Lemma split_no_sep (sep : ascii) (s : string) :
  Str.all (fun c => negb (Stdlib.Strings.Ascii.eqb c sep)) s = true ->
  Str.split sep s = [s].
Proof.
  induction s as [|c s IH]; [done|]. simpl.
  intros [Hc Hs]%andb_true_iff.
  apply negb_true_iff in Hc. rewrite Hc. by rewrite (IH Hs).
Qed.

Lemma split_app_sep (sep : ascii) (a r : string) :
  Str.all (fun c => negb (Stdlib.Strings.Ascii.eqb c sep)) a = true ->
  Str.split sep (a +:+ String sep r) = a :: Str.split sep r.
Proof.
  induction a as [|c a IH].
  - intros _. rewrite app_empty_l. simpl. by rewrite Ascii.eqb_refl.
  - intros H. simpl in H. apply andb_true_iff in H as [Hc Hs].
    rewrite app_cons. simpl.
    apply negb_true_iff in Hc. rewrite Hc. by rewrite (IH Hs).
Qed.

(** ** The matcher *)

Lemma plus_k_spec (i : Re.item) (pos : nat) (s : string) (k : nat -> string -> bool) :
  Re.plus_k i pos s k = true <->
  exists a rest, s = a +:+ rest /\ a <> "" /\ Str.all (Re.item_ok i) a = true
                 /\ k (pos + String.length a)%nat rest = true.
Proof.
  revert pos. induction s as [|c s IH]; intros pos; simpl.
  - split; [done|]. intros (a & rest & Hs & Ha & _). by destruct a.
  - rewrite andb_true_iff, orb_true_iff, IH. split.
    + intros [Hc [(a & rest & -> & Ha & Hall & Hk) | Hk]].
      * exists (String c a), rest. simpl. rewrite Hc, Hall.
        replace (pos + S (String.length a))%nat with (S pos + String.length a)%nat by lia.
        done.
      * exists (String c ""), s. simpl. rewrite Hc.
        replace (pos + 1)%nat with (S pos) by lia. done.
    + intros (a & rest & Hs & Ha & Hall & Hk).
      destruct a as [|d a]; [done|]. rewrite app_cons in Hs. simplify_eq.
      simpl in Hall. apply andb_true_iff in Hall as [Hc Hall]. split; [done|].
      destruct a as [|e a].
      * right. rewrite app_empty_l. simpl in Hk.
        by replace (pos + 1)%nat with (S pos) in Hk by lia.
      * left. exists (String e a), rest. repeat split; try done.
        by replace (pos + String.length (String d (String e a)))%nat
          with (S pos + String.length (String e a))%nat in Hk by (simpl; lia).
Qed.

Lemma word_class_spec (c : ascii) : Re.item_ok word_class c = spec_word_char c.
Proof. by destruct c as [[] [] [] [] [] [] [] []]. Qed.

Lemma all_word_class (s : string) :
  Str.all (Re.item_ok word_class) s = Str.all spec_word_char s.
Proof. induction s as [|c s IH]; [done|]. cbn [Str.all]. by rewrite word_class_spec, IH. Qed.

Lemma part_not_empty (s : string) : spec_part s = true -> s <> "".
Proof. by destruct s. Qed.

Lemma part_intro (s : string) :
  s <> "" -> Str.all (Re.item_ok word_class) s = true -> spec_part s = true.
Proof.
  intros Hne Hall. unfold spec_part. rewrite <- all_word_class, Hall.
  by destruct s.
Qed.

Lemma part_all (s : string) :
  spec_part s = true -> Str.all (Re.item_ok word_class) s = true.
Proof.
  unfold spec_part. rewrite all_word_class. by intros [_ ?]%andb_true_iff.
Qed.

(** What [table_name_re] accepts: one part or two parts joined by a dot,
    followed by whatever [$] tolerates. *)
Lemma table_name_re_spec (s : string) :
  Re.matches table_name_re s = true <->
  exists a tail, spec_part a = true /\ Re.at_end tail = true /\
    (s = a +:+ tail \/
     exists b, spec_part b = true /\ s = a +:+ String "." (b +:+ tail)).
Proof.
  unfold Re.matches, table_name_re. cbn [Re.run Nat.eqb andb].
  rewrite plus_k_spec. split.
  - intros (a & rest & -> & Ha & Hall & Hk).
    exists a. apply orb_true_iff in Hk as [Hk | Hk].
    + destruct rest as [|c rest]; [done|].
      apply andb_true_iff in Hk as [Hc Hk].
      apply plus_k_spec in Hk as (b & tail & -> & Hb & Hball & Hend).
      apply andb_true_iff in Hend as [Hend _].
      exists tail. split; [by apply part_intro|]. split; [done|]. right.
      exists b. split; [by apply part_intro|].
      cbn [Re.item_ok] in Hc. by apply Ascii.eqb_eq in Hc as <-.
    + apply andb_true_iff in Hk as [Hend _].
      exists rest. split; [by apply part_intro|]. split; [done|]. by left.
  - intros (a & tail & Ha & Hend & [-> | (b & Hb & ->)]).
    + exists a, tail. split; [done|]. split; [by apply part_not_empty|].
      split; [by apply part_all|]. rewrite Hend. apply orb_true_r.
    + exists a, (String "." (b +:+ tail)). split; [done|].
      split; [by apply part_not_empty|]. split; [by apply part_all|].
      apply orb_true_iff. left. simpl. apply plus_k_spec.
      exists b, tail. split; [done|]. split; [by apply part_not_empty|].
      split; [by apply part_all|]. by rewrite Hend.
Qed.

Lemma spec_dotted_spec (s : string) :
  spec_dotted s = true <->
  exists a b, spec_part a = true /\ spec_part b = true /\ s = a +:+ String "." b.
Proof.
  induction s as [|c s IH].
  - split; [done|]. intros ([|??] & b & Ha & _ & Hs); done.
  - cbn [spec_dotted]. rewrite andb_true_iff, orb_true_iff, IH. split.
    + intros [Hc [Hb | (a & b & Ha & Hb & ->)]].
      * destruct s as [|d b]; [done|].
        destruct (Ascii.eqb_spec d ".") as [->|Hd].
        -- exists (String c ""), b. unfold spec_part at 1. simpl.
           by rewrite Hc.
        -- exfalso. revert Hb Hd.
           by destruct d as [[] [] [] [] [] [] [] []].
      * exists (String c a), b. split; [|done].
        unfold spec_part in *. simpl. rewrite Hc.
        by apply andb_true_iff in Ha as [_ ->].
    + intros (a & b & Ha & Hb & Hs).
      destruct a as [|d a]; [done|]. rewrite app_cons in Hs. simplify_eq.
      unfold spec_part in Ha. simpl in Ha. apply andb_true_iff in Ha as [Hc Ha].
      split; [done|]. destruct a as [|e a].
      * left. by rewrite app_empty_l.
      * right. exists (String e a), b. split; [|done].
        unfold spec_part. by simpl.
Qed.

Lemma word_char_not_dot (c : ascii) :
  spec_word_char c = true -> negb (Stdlib.Strings.Ascii.eqb c ".") = true.
Proof. by destruct c as [[] [] [] [] [] [] [] []]. Qed.

Lemma part_no_dot (s : string) :
  spec_part s = true ->
  Str.all (fun c => negb (Stdlib.Strings.Ascii.eqb c ".")) s = true.
Proof.
  unfold spec_part. intros [_ H]%andb_true_iff.
  eapply all_impl; [|done]. apply word_char_not_dot.
Qed.

Lemma at_end_spec (tail : string) :
  Re.at_end tail = true <-> tail = "" \/ tail = String Str.LF "".
Proof.
  destruct tail as [|c [|d t]]; simpl.
  - split; auto.
  - rewrite Ascii.eqb_eq. split; [intros ->; by right|].
    intros [?|?]; by simplify_eq.
  - split; [done|]. intros [?|?]; done.
Qed.

Lemma at_end_no_dot (tail : string) :
  Re.at_end tail = true ->
  Str.all (fun c => negb (Stdlib.Strings.Ascii.eqb c ".")) tail = true.
Proof. by intros [-> | ->]%at_end_spec. Qed.

(** ** [validate_table_name] on what the pattern accepts and refuses *)

Lemma validate_rejects (s : string) :
  Re.matches table_name_re s = false ->
  validate_table_name s = Raise (ValueError ("Invalid table name: " +:+ s)).
Proof. unfold validate_table_name. by intros ->. Qed.

Lemma validate_one_part (a tail : string) :
  spec_part a = true -> Re.at_end tail = true ->
  validate_table_name (a +:+ tail) = Ok ("[" +:+ (a +:+ tail) +:+ "]").
Proof.
  intros Ha Hend. unfold validate_table_name.
  assert (Re.matches table_name_re (a +:+ tail) = true) as ->.
  { apply table_name_re_spec. exists a, tail. auto. }
  rewrite split_no_sep; [done|].
  rewrite all_app, part_no_dot, at_end_no_dot; done.
Qed.

Lemma validate_two_parts (a b tail : string) :
  spec_part a = true -> spec_part b = true -> Re.at_end tail = true ->
  validate_table_name (a +:+ String "." (b +:+ tail))
  = Ok ("[" +:+ a +:+ "].[" +:+ (b +:+ tail) +:+ "]").
Proof.
  intros Ha Hb Hend. unfold validate_table_name.
  assert (Re.matches table_name_re (a +:+ String "." (b +:+ tail)) = true) as ->.
  { apply table_name_re_spec. exists a, tail. eauto 6. }
  rewrite split_app_sep by by apply part_no_dot.
  rewrite split_no_sep; [done|].
  rewrite all_app, part_no_dot, at_end_no_dot; done.
Qed.

(** The pattern accepts exactly the strings of the specified shape, each
    with or without one trailing line feed. *)
Lemma table_name_re_shape (s : string) :
  Re.matches table_name_re s = true <->
  exists t tail, s = t +:+ tail /\ spec_shape t = true /\ Re.at_end tail = true.
Proof.
  rewrite table_name_re_spec. unfold spec_shape. split.
  - intros (a & tail & Ha & Hend & [-> | (b & Hb & ->)]).
    + exists a, tail. by rewrite Ha.
    + exists (a +:+ String "." b), tail. rewrite app_assoc_str, app_cons.
      split; [done|]. split; [|done]. apply orb_true_iff. right.
      apply spec_dotted_spec. eauto.
  - intros (t & tail & -> & [Ht | Ht]%orb_true_iff & Hend).
    + exists t, tail. auto.
    + apply spec_dotted_spec in Ht as (a & b & Ha & Hb & ->).
      exists a, tail. split; [done|]. split; [done|]. right.
      exists b. by rewrite app_assoc_str, app_cons.
Qed.

(** Refusal is the only failure, and it carries the input. *)
Lemma validate_raises_iff (s : string) (e : exn) :
  validate_table_name s = Raise e <->
  Re.matches table_name_re s = false /\ e = ValueError ("Invalid table name: " +:+ s).
Proof.
  unfold validate_table_name.
  destruct (Re.matches table_name_re s); simpl.
  - split; [by case_match | by intros [? _]].
  - split; [by intros [= <-] | by intros [_ ->]].
Qed.

(** A name of neither shape that does not end in a line feed is refused. *)
Lemma validate_refuses_outside_shape (s : string) :
  spec_shape s = false ->
  (forall t, s <> t +:+ String Str.LF "") ->
  validate_table_name s = Raise (ValueError ("Invalid table name: " +:+ s)).
Proof.
  intros Hshape Hlf. apply validate_rejects.
  destruct (Re.matches table_name_re s) eqn:Hm; [|done].
  apply table_name_re_shape in Hm as (t & tail & -> & Ht & [-> | ->]%at_end_spec).
  - rewrite app_empty_r in Hshape. congruence.
  - by destruct (Hlf t).
Qed.

(** What is accepted consists of letters, digits, underscores, dots and
    line feeds. *)
Lemma accepted_chars (s : string) :
  Re.matches table_name_re s = true ->
  Str.all (fun c => spec_word_char c
                    || (Stdlib.Strings.Ascii.eqb c "." || Stdlib.Strings.Ascii.eqb c Str.LF)) s
  = true.
Proof.
  set (ok := fun c => _).
  assert (forall a, spec_part a = true -> Str.all ok a = true) as Hpart.
  { intros a [_ Ha]%andb_true_iff. eapply all_impl; [|done].
    intros c Hc. unfold ok. by rewrite Hc. }
  assert (forall tail, Re.at_end tail = true -> Str.all ok tail = true) as Htail.
  { by intros tail [-> | ->]%at_end_spec. }
  intros (a & tail & Ha & Hend & [-> | (b & Hb & ->)])%table_name_re_spec.
  - by rewrite all_app, Hpart, Htail.
  - rewrite all_app, Hpart by done. cbn [Str.all andb].
    by rewrite all_app, Hpart, Htail.
Qed.

(** A name with a space, a semicolon, a bracket or any other character
    outside that set is refused, wherever the character stands. *)
Lemma validate_refuses_char (pre post : string) (c : ascii) :
  spec_word_char c = false -> c <> "."%char -> c <> Str.LF ->
  validate_table_name (pre +:+ String c post)
  = Raise (ValueError ("Invalid table name: " +:+ pre +:+ String c post)).
Proof.
  intros Hw Hdot Hlf. apply validate_rejects.
  destruct (Re.matches table_name_re _) eqn:Hm; [|done].
  apply accepted_chars in Hm. rewrite all_app in Hm.
  apply andb_true_iff in Hm as [_ Hm]. cbn [Str.all] in Hm.
  apply andb_true_iff in Hm as [Hc _]. rewrite Hw in Hc. cbn [orb] in Hc.
  apply orb_true_iff in Hc as [Hc%Ascii.eqb_eq | Hc%Ascii.eqb_eq]; done.
Qed.

(** A name of three or more segments is refused. *)
Lemma validate_refuses_segments (s : string) :
  (3 <= length (Str.split "." s))%nat ->
  validate_table_name s = Raise (ValueError ("Invalid table name: " +:+ s)).
Proof.
  intros Hlen. apply validate_rejects.
  destruct (Re.matches table_name_re s) eqn:Hm; [|done]. exfalso.
  apply table_name_re_spec in Hm as (a & tail & Ha & Hend & [-> | (b & Hb & ->)]).
  - rewrite split_no_sep in Hlen; [simpl in Hlen; lia|].
    by rewrite all_app, part_no_dot, at_end_no_dot.
  - rewrite split_app_sep in Hlen by by apply part_no_dot.
    rewrite split_no_sep in Hlen; [simpl in Hlen; lia|].
    by rewrite all_app, part_no_dot, at_end_no_dot.
Qed.

(** C1: every string of one or more ASCII letters, digits and underscores
    comes back wrapped in square brackets, and two such parts joined by a
    dot come back each wrapped on its own and joined by a dot. *)
Theorem C1_validate_table_name_quotes :
  (forall s, spec_part s = true ->
     validate_table_name s = Ok ("[" +:+ s +:+ "]")) /\
  (forall a b, spec_part a = true -> spec_part b = true ->
     validate_table_name (a +:+ "." +:+ b) = Ok ("[" +:+ a +:+ "].[" +:+ b +:+ "]")).
Proof.
  split.
  - intros s Hs.
    pose proof (validate_one_part s "" Hs eq_refl) as H.
    by rewrite app_empty_r in H.
  - intros a b Ha Hb.
    pose proof (validate_two_parts a b "" Ha Hb eq_refl) as H.
    by rewrite app_empty_r in H.
Qed.

Lemma C1_validate_table_name_quotes_witness :
  validate_table_name "users" = Ok "[users]" /\
  validate_table_name "dbo.users" = Ok "[dbo].[users]".
Proof.
  split.
  - apply (proj1 C1_validate_table_name_quotes "users"). reflexivity.
  - apply (proj2 C1_validate_table_name_quotes "dbo" "users"); reflexivity.
Defined.

(** C2, at a name ending in a line feed: the name has neither accepted
    shape, yet it is accepted and comes back quoted with the line feed
    inside the brackets. *)
Theorem C2_trailing_newline_accepted :
  let name := "users" +:+ String Str.LF "" in
  spec_shape name = false /\
  validate_table_name name = Ok ("[users" +:+ String Str.LF "]").
Proof. split; reflexivity. Qed.

(** ** Effects *)

Section EffLaws.
Context {A B : Type}.
Implicit Types (m : Eff A) (f : A -> Eff B).

Lemma outcome_bind m f :
  outcome (bind m f) =
  match outcome m with
  | Ok a => outcome (f a)
  | Raise e => Raise e
  end.
Proof. destruct m as [l [a|e]]; [|done]. unfold bind, outcome. simpl. by destruct (f a). Qed.

Lemma logged_bind m f :
  logged (bind m f) =
  logged m ++ match outcome m with
              | Ok a => logged (f a)
              | Raise _ => []
              end.
Proof.
  destruct m as [l [a|e]]; unfold bind, logged, outcome; simpl.
  - by destruct (f a).
  - by rewrite app_nil_r.
Qed.

Lemma outcome_ret (a : A) : outcome (ret a) = Ok a.
Proof. done. Qed.

Lemma outcome_raise (e : exn) : outcome (@raise A e) = Raise e.
Proof. done. Qed.

Lemma outcome_if (c : bool) (m1 m2 : Eff A) :
  outcome (if c then m1 else m2) = if c then outcome m1 else outcome m2.
Proof. by destruct c. Qed.

End EffLaws.

Lemma outcome_emit (lvl : level) (msg : string) : outcome (emit lvl msg) = Ok tt.
Proof. done. Qed.

Lemma getitem_insert_eq (d : gmap string pyval) (k : string) (v : pyval) :
  getitem (<[k := v]> d) k = ret v.
Proof. unfold getitem. by rewrite lookup_insert_eq. Qed.

Lemma getitem_insert_ne (d : gmap string pyval) (k k' : string) (v : pyval) :
  k <> k' -> getitem (<[k := v]> d) k' = getitem d k'.
Proof. intros. unfold getitem. by rewrite lookup_insert_ne. Qed.

Lemma getitem_lookup (d : gmap string pyval) (k : string) (v : pyval) :
  d !! k = Some v -> getitem d k = ret v.
Proof. unfold getitem. by intros ->. Qed.

Lemma In_logged_bind {A B} (m : Eff A) (f : A -> Eff B) (a : A) (x : log_record) :
  outcome m = Ok a -> In x (logged (f a)) -> In x (logged (bind m f)).
Proof. intros Hm Hx. rewrite logged_bind, Hm. apply in_or_app. by right. Qed.

Ltac eff_simpl :=
  repeat first
    [ rewrite outcome_bind
    | rewrite outcome_emit
    | rewrite outcome_ret
    | rewrite outcome_raise
    | progress cbv beta iota ].

(** The stage at the head of the computation returns [v]. *)
Ltac stage_returns v :=
  match goal with
  | |- match outcome ?m with _ => _ end = _ =>
      let H := fresh in
      assert (outcome m = Ok v) as H; [ | rewrite H; clear H; eff_simpl ]
  end.

(** Step over a stage that returns [v] while looking for a log record. *)
Ltac log_step v :=
  eapply (In_logged_bind _ _ v); [ try done | cbv beta ].

(** ** The stages of [get_db_config] *)

Lemma azure_check (s : string) :
  outcome (if truthy (PStr s)
           then bind (ret (PStr s)) (fun srv => py_in azure_suffix srv)
           else ret false)
  = Ok (Str.contains s azure_suffix).
Proof. by destruct s. Qed.

Lemma lookup_initial_config (environ : gmap string string) :
  initial_config environ !! "server" = Some (PStr (resolved_server environ)) /\
  initial_config environ !! "user" = Some (getenv environ "MSSQL_USER") /\
  initial_config environ !! "password" = Some (getenv environ "MSSQL_PASSWORD") /\
  initial_config environ !! "database" = Some (getenv environ "MSSQL_DATABASE") /\
  initial_config environ !! "port" = Some (PStr (getenv_or environ "MSSQL_PORT" "1433")) /\
  initial_config environ !! "tds_version" = None /\
  initial_config environ !! "encrypt" = None.
Proof. unfold initial_config. repeat split; by simplify_map_eq. Qed.

Lemma lookup_with_port (environ : gmap string string) (k : string) :
  k <> "port" -> with_port environ !! k = initial_config environ !! k.
Proof.
  intros Hk. unfold with_port. repeat case_match; try done.
  by rewrite lookup_insert_ne.
Qed.

Lemma lookup_with_encrypt (environ : gmap string string) (k : string) :
  k <> "tds_version" -> k <> "encrypt" ->
  with_encrypt environ !! k = with_port environ !! k.
Proof.
  intros Hk1 Hk2. unfold with_encrypt.
  repeat case_match; by rewrite ?lookup_insert_ne.
Qed.

Lemma lookup_with_encrypt_env (environ : gmap string string) :
  with_encrypt environ !! "server" = Some (PStr (resolved_server environ)) /\
  with_encrypt environ !! "user" = Some (getenv environ "MSSQL_USER") /\
  with_encrypt environ !! "password" = Some (getenv environ "MSSQL_PASSWORD") /\
  with_encrypt environ !! "database" = Some (getenv environ "MSSQL_DATABASE").
Proof.
  rewrite !lookup_with_encrypt, !lookup_with_port by done.
  by destruct (lookup_initial_config environ) as (? & ? & ? & ? & _).
Qed.

(** [get_db_config] computes [resolved]. *)
Lemma get_db_config_outcome (environ : gmap string string) :
  outcome (get_db_config environ) = resolved environ.
Proof.
  unfold get_db_config.
  eff_simpl.
  stage_returns (resolved_server environ).
  { unfold resolved_server. by destruct (Str.startswith _ _). }
  fold (initial_config environ).
  destruct (lookup_initial_config environ) as (Hs & Hu & Hp & Hd & _).
  rewrite (getitem_lookup _ _ _ Hu), (getitem_lookup _ _ _ Hd),
    (getitem_lookup _ _ _ Hp). eff_simpl.
  stage_returns (with_port environ).
  { unfold with_port. repeat case_match; by eff_simpl. }
  rewrite (getitem_lookup _ "server" (PStr (resolved_server environ)))
    by by rewrite lookup_with_port.
  rewrite outcome_ret. cbv beta iota.
  rewrite outcome_bind, azure_check. eff_simpl.
  stage_returns (with_encrypt environ).
  { unfold with_encrypt, env_flag. repeat case_match; by eff_simpl. }
  destruct (lookup_with_encrypt_env environ) as (_ & Hu' & Hp' & Hd').
  unfold resolved. fold (env_flag environ "MSSQL_WINDOWS_AUTH" "false").
  destruct (env_flag environ "MSSQL_WINDOWS_AUTH" "false").
  - rewrite (getitem_lookup _ _ _ Hd'). eff_simpl.
    destruct (truthy (getenv environ "MSSQL_DATABASE")); by eff_simpl.
  - rewrite (getitem_lookup _ _ _ Hu'), (getitem_lookup _ _ _ Hd'),
      (getitem_lookup _ _ _ Hp'). eff_simpl.
    destruct (py_all _); by eff_simpl.
Qed.

(** ** Searching and replacing *)

Lemma startswith_spec (s pre : string) :
  Str.startswith s pre = true <-> exists post, s = pre +:+ post.
Proof.
  revert s. induction pre as [|p pre IH]; intros s.
  - split; [by exists s | done].
  - destruct s as [|c s]; simpl.
    + split; [done|]. by intros (post & ?).
    + destruct (Ascii.eqb_spec p c) as [->|Hne].
      * rewrite IH. split; intros (post & Hs); exists post.
        -- by rewrite app_cons, Hs.
        -- rewrite app_cons in Hs. by simplify_eq.
      * split; [done|]. intros (post & Hs). rewrite app_cons in Hs. by simplify_eq.
Qed.

Lemma contains_spec (hay needle : string) :
  Str.contains hay needle = true <->
  exists pre post, hay = pre +:+ needle +:+ post.
Proof.
  induction hay as [|c hay IH]; cbn [Str.contains]; rewrite orb_true_iff, startswith_spec.
  - split.
    + intros [(post & Hs) | ?]; [|done]. by exists "", post.
    + intros ([|??] & post & Hs); [|done]. left. by exists post.
  - rewrite IH. split.
    + intros [(post & Hs) | (pre & post & ->)].
      * by exists "", post.
      * by exists (String c pre), post.
    + intros ([|d pre] & post & Hs).
      * left. by exists post.
      * right. rewrite app_cons in Hs. simplify_eq. by exists pre, post.
Qed.

Lemma replace_from_skip (old new a s : string) :
  Str.replace_from old new (String.length a) (a +:+ s) = Str.replace_from old new 0 s.
Proof. induction a as [|c a IH]; [done|]. by rewrite app_cons. Qed.

(** An occurrence at the front is replaced, and the search goes on after it. *)
Lemma replace_prefix (old new rest : string) :
  old <> "" ->
  Str.replace (old +:+ rest) old new = new +:+ Str.replace rest old new.
Proof.
  intros Hold. unfold Str.replace.
  destruct old as [|c old]; [done|]. rewrite app_cons.
  cbn [Str.replace_from].
  assert (Str.startswith (String c (old +:+ rest)) (String c old) = true) as ->.
  { apply startswith_spec. by exists rest. }
  cbn [String.length]. rewrite Nat.sub_1_r. cbn [Nat.pred].
  by rewrite replace_from_skip.
Qed.

(** Without an occurrence nothing changes. *)
Lemma replace_absent (s old new : string) :
  Str.contains s old = false -> Str.replace s old new = s.
Proof.
  unfold Str.replace. induction s as [|c s IH]; [done|].
  cbn [Str.contains Str.replace_from].
  intros [H1 H2]%orb_false_iff. rewrite H1. by rewrite IH.
Qed.

Lemma drop_chars_app (a s : string) : drop_chars (String.length a) (a +:+ s) = s.
Proof. induction a as [|c a IH]; [by destruct s|]. by rewrite app_cons. Qed.

Lemma strip_prefix_app (pre rest : string) : strip_prefix (pre +:+ rest) pre = rest.
Proof.
  unfold strip_prefix.
  assert (Str.startswith (pre +:+ rest) pre = true) as ->.
  { apply startswith_spec. by exists rest. }
  apply drop_chars_app.
Qed.

(** ** Lower-casing *)

Lemma lower_char_eqb (c p : ascii) :
  In p ["t"; "r"; "u"; "e"]%char ->
  Stdlib.Strings.Ascii.eqb (Str.lower_char c) p
  = Stdlib.Strings.Ascii.eqb c p || Stdlib.Strings.Ascii.eqb c (upper_ascii p).
Proof.
  intros [<- | [<- | [<- | [<- | []]]]];
    by destruct c as [[] [] [] [] [] [] [] []].
Qed.

(** Exactly the spellings of [true] in any mix of cases lower to [true]. *)
Lemma lower_true (v : string) :
  Str.lower v = "true" <-> case_variant "true" v = true.
Proof.
  rewrite <- String.eqb_eq.
  destruct v as [|c1 [|c2 [|c3 [|c4 [|c5 v]]]]]; try done.
  all: cbn [Str.lower String.eqb case_variant].
  all: rewrite ?lower_char_eqb by (simpl; tauto).
  all: repeat (destruct (_ || _); cbn [andb]); done.
Qed.

(** ** The resolved record *)

Lemma truthy_getenv (environ : gmap string string) (name : string) :
  truthy (getenv environ name) = negb (is_missing environ name).
Proof. unfold getenv, is_missing. by destruct (environ !! name). Qed.

Lemma py_all_missing (environ : gmap string string) :
  py_all [getenv environ "MSSQL_USER"; getenv environ "MSSQL_PASSWORD";
          getenv environ "MSSQL_DATABASE"] = true
  <-> missing_fields environ = [].
Proof.
  unfold py_all, missing_fields. cbn [forallb List.filter].
  rewrite !truthy_getenv.
  destruct (is_missing environ "MSSQL_USER"),
    (is_missing environ "MSSQL_PASSWORD"),
    (is_missing environ "MSSQL_DATABASE"); by cbn.
Qed.

Lemma env_flag_true (environ : gmap string string) (name default : string) :
  env_flag environ name default = true
  <-> Str.lower (getenv_or environ name default) = "true".
Proof. apply String.eqb_eq. Qed.

Lemma env_flag_false (environ : gmap string string) (name default : string) :
  env_flag environ name default = false
  <-> Str.lower (getenv_or environ name default) <> "true".
Proof. apply String.eqb_neq. Qed.

Lemma success_inv (environ : gmap string string) (cfg : gmap string pyval) :
  outcome (get_db_config environ) = Ok cfg ->
  (env_flag environ "MSSQL_WINDOWS_AUTH" "false" = true
   /\ is_missing environ "MSSQL_DATABASE" = false
   /\ cfg = delete "password" (delete "user" (with_encrypt environ)))
  \/ (env_flag environ "MSSQL_WINDOWS_AUTH" "false" = false
      /\ missing_fields environ = []
      /\ cfg = with_encrypt environ).
Proof.
  rewrite get_db_config_outcome. unfold resolved.
  destruct (env_flag environ "MSSQL_WINDOWS_AUTH" "false").
  - rewrite truthy_getenv.
    destruct (is_missing environ "MSSQL_DATABASE"); [done|].
    intros [= <-]. by left.
  - destruct (py_all _) eqn:Hall; [|done].
    intros [= <-]. right. by apply py_all_missing in Hall.
Qed.

Lemma success_lookup (environ : gmap string string) (cfg : gmap string pyval)
    (k : string) :
  outcome (get_db_config environ) = Ok cfg ->
  k <> "user" -> k <> "password" ->
  cfg !! k = with_encrypt environ !! k.
Proof.
  intros [(_ & _ & ->) | (_ & _ & ->)]%success_inv ? ?; [|done].
  by rewrite !lookup_delete_ne.
Qed.

(** The server of the record is the server of the environment, rewritten
    when it names a LocalDB instance. *)
Lemma get_db_config_server (environ : gmap string string) (cfg : gmap string pyval) :
  outcome (get_db_config environ) = Ok cfg ->
  cfg !! "server" = Some (PStr (resolved_server environ)).
Proof.
  intros H. rewrite (success_lookup _ _ _ H) by done.
  by destruct (lookup_with_encrypt_env environ).
Qed.

(** The port of the record: the text of the environment, or [1433] as
    text, unless the text is not empty and reads as an integer. *)
Lemma get_db_config_port (environ : gmap string string) (cfg : gmap string pyval) :
  outcome (get_db_config environ) = Ok cfg ->
  cfg !! "port" =
  Some (match environ !! "MSSQL_PORT" with
        | None => PStr "1433"
        | Some p =>
            if Str.is_empty p then PStr p
            else match py_int p with
                 | Some n => PInt n
                 | None => PStr p
                 end
        end).
Proof.
  intros H. rewrite (success_lookup _ _ _ H), lookup_with_encrypt by done.
  unfold with_port, initial_config, getenv, getenv_or.
  destruct (environ !! "MSSQL_PORT") as [p|]; cbn [truthy py_str].
  - destruct (Str.is_empty p); cbn [negb]; [by simplify_map_eq|].
    destruct (py_int p); by simplify_map_eq.
  - by simplify_map_eq.
Qed.

Lemma get_db_config_tds_version (environ : gmap string string)
    (cfg : gmap string pyval) :
  outcome (get_db_config environ) = Ok cfg ->
  cfg !! "tds_version" =
  if Str.contains (resolved_server environ) azure_suffix
  then Some (PStr "7.4") else None.
Proof.
  intros H. rewrite (success_lookup _ _ _ H) by done.
  destruct (lookup_initial_config environ) as (_ & _ & _ & _ & _ & Ht & _).
  unfold with_encrypt.
  destruct (Str.contains _ _).
  - destruct (env_flag _ _ _); by simplify_map_eq.
  - rewrite lookup_insert_ne, lookup_with_port by done. done.
Qed.

(** The [encrypt] key: set to true or left out for an Azure server, set
    to the flag for any other. *)
Lemma get_db_config_encrypt (environ : gmap string string)
    (cfg : gmap string pyval) :
  outcome (get_db_config environ) = Ok cfg ->
  cfg !! "encrypt" =
  if Str.contains (resolved_server environ) azure_suffix
  then if env_flag environ "MSSQL_ENCRYPT" "true" then Some (PBool true) else None
  else Some (PBool (env_flag environ "MSSQL_ENCRYPT" "false")).
Proof.
  intros H. rewrite (success_lookup _ _ _ H) by done.
  destruct (lookup_initial_config environ) as (_ & _ & _ & _ & _ & _ & He).
  unfold with_encrypt.
  destruct (Str.contains _ _).
  - destruct (env_flag _ _ _); [by simplify_map_eq|].
    rewrite lookup_insert_ne, lookup_with_port by done. done.
  - by simplify_map_eq.
Qed.

(** Outside LocalDB the server passes through unchanged. *)
Lemma resolved_server_other (environ : gmap string string) :
  Str.startswith (getenv_or environ "MSSQL_SERVER" "localhost") localdb_prefix = false ->
  resolved_server environ = getenv_or environ "MSSQL_SERVER" "localhost".
Proof. unfold resolved_server. by intros ->. Qed.

(** A LocalDB server whose instance name does not itself contain the
    prefix becomes [.\] followed by the instance name. *)
Lemma resolved_server_localdb (environ : gmap string string) (instance : string) :
  getenv_or environ "MSSQL_SERVER" "localhost" = localdb_prefix +:+ instance ->
  Str.contains instance localdb_prefix = false ->
  resolved_server environ = ".\" +:+ instance.
Proof.
  intros Hs Hinst. unfold resolved_server. rewrite Hs.
  assert (Str.startswith (localdb_prefix +:+ instance) localdb_prefix = true) as ->.
  { apply startswith_spec. by exists instance. }
  rewrite replace_prefix by done.
  by rewrite replace_absent.
Qed.

(** ** Authentication modes *)

Lemma integrated_auth_run (environ : gmap string string) :
  env_flag environ "MSSQL_WINDOWS_AUTH" "false" = true ->
  runs_integrated_auth environ.
Proof.
  intros Hmode. unfold runs_integrated_auth.
  rewrite get_db_config_outcome. unfold resolved.
  rewrite Hmode, truthy_getenv.
  destruct (is_missing environ "MSSQL_DATABASE"); split; try done.
  intros _. eexists. split; [done|].
  split; [by rewrite lookup_delete_ne, lookup_delete_eq | by rewrite lookup_delete_eq].
Qed.

Lemma sql_auth_run (environ : gmap string string) :
  env_flag environ "MSSQL_WINDOWS_AUTH" "false" = false ->
  runs_sql_auth environ.
Proof.
  intros Hmode. unfold runs_sql_auth.
  rewrite get_db_config_outcome. unfold resolved. rewrite Hmode.
  pose proof (py_all_missing environ) as Hall.
  destruct (py_all _); split.
  - intros Hne. destruct Hne. by apply Hall.
  - intros _. eexists. split; [done|].
    by destruct (lookup_with_encrypt_env environ) as (_ & ? & ? & _).
  - done.
  - intros Hnil. by apply Hall in Hnil.
Qed.

(** Every failure of [get_db_config] is the same [ValueError]. *)
Lemma failure_inv (environ : gmap string string) (e : exn) :
  outcome (get_db_config environ) = Raise e -> e = ValueError missing_msg.
Proof.
  rewrite get_db_config_outcome. unfold resolved.
  repeat case_match; congruence.
Qed.

(** Under SQL authentication with a field missing, the values at hand go
    to the error log. *)
Lemma sql_auth_failure_logged (environ : gmap string string) :
  env_flag environ "MSSQL_WINDOWS_AUTH" "false" = false ->
  missing_fields environ <> [] ->
  In (current_values environ) (logged (get_db_config environ)).
Proof.
  intros Hmode Hmiss.
  assert (py_all [getenv environ "MSSQL_USER"; getenv environ "MSSQL_PASSWORD";
                  getenv environ "MSSQL_DATABASE"] = false) as Hall.
  { apply not_true_is_false. by rewrite py_all_missing. }
  unfold get_db_config.
  destruct (lookup_initial_config environ) as (Hs & Hu & Hp & Hd & _).
  destruct (lookup_with_encrypt_env environ) as (_ & Hu' & Hp' & Hd').
  log_step tt. log_step tt.
  log_step (resolved_server environ).
  { unfold resolved_server. by destruct (Str.startswith _ _). }
  fold (initial_config environ).
  rewrite (getitem_lookup _ _ _ Hu), (getitem_lookup _ _ _ Hd),
    (getitem_lookup _ _ _ Hp).
  do 6 (eapply In_logged_bind; [reflexivity | cbv beta]).
  log_step (with_port environ).
  { unfold with_port. repeat case_match; by eff_simpl. }
  rewrite (getitem_lookup _ "server" (PStr (resolved_server environ)))
    by by rewrite lookup_with_port.
  log_step (PStr (resolved_server environ)).
  log_step (Str.contains (resolved_server environ) azure_suffix).
  { apply azure_check. }
  log_step (with_encrypt environ).
  { unfold with_encrypt, env_flag. repeat case_match; by eff_simpl. }
  fold (env_flag environ "MSSQL_WINDOWS_AUTH" "false"). rewrite Hmode.
  rewrite (getitem_lookup _ _ _ Hu'), (getitem_lookup _ _ _ Hd'),
    (getitem_lookup _ _ _ Hp').
  do 4 (eapply In_logged_bind; [reflexivity | cbv beta]).
  rewrite Hall. cbn [negb].
  do 2 (eapply In_logged_bind; [reflexivity | cbv beta]).
  rewrite logged_bind. apply in_or_app. left. by left.
Qed.

(** A port that is set, not empty and not an integer is announced in the
    log as replaced by the default. *)
Lemma port_warning_logged (environ : gmap string string) (p : string) :
  environ !! "MSSQL_PORT" = Some p ->
  Str.is_empty p = false ->
  py_int p = None ->
  In (WARNING, "Invalid MSSQL_PORT value: " +:+ p +:+ ". Using default port.")
     (logged (get_db_config environ)).
Proof.
  intros Hp Hne Hint. unfold get_db_config.
  destruct (lookup_initial_config environ) as (Hs & Hu & Hpw & Hd & _).
  log_step tt. log_step tt.
  log_step (resolved_server environ).
  { unfold resolved_server. by destruct (Str.startswith _ _). }
  fold (initial_config environ).
  rewrite (getitem_lookup _ _ _ Hu), (getitem_lookup _ _ _ Hd),
    (getitem_lookup _ _ _ Hpw).
  do 6 (eapply In_logged_bind; [reflexivity | cbv beta]).
  rewrite logged_bind. apply in_or_app. left.
  unfold getenv. rewrite Hp. cbn [truthy py_str]. rewrite Hne, Hint.
  by left.
Qed.

(** * The claims *)

(** C3, at [MSSQL_PORT=notanumber]: the text does not read as an
    integer, the warning announces the default port, and the record that
    comes back holds the unparseable text as its port, not 1433. *)
Theorem C3_unparseable_port_kept :
  py_int "notanumber" = None /\
  In (WARNING, "Invalid MSSQL_PORT value: notanumber. Using default port.")
     (logged (get_db_config env_bad_port)) /\
  exists cfg, outcome (get_db_config env_bad_port) = Ok cfg
              /\ cfg !! "port" = Some (PStr "notanumber")
              /\ cfg !! "port" <> Some (PInt 1433).
Proof.
  split; [reflexivity|]. split.
  - vm_compute. tauto.
  - destruct (sql_auth_run env_bad_port) as [_ (cfg & Hrun & _)];
      [by vm_compute..|].
    exists cfg. split; [done|].
    rewrite (get_db_config_port _ _ Hrun). by vm_compute.
Qed.

(** C4, at an Azure server with [MSSQL_ENCRYPT=false]: the record that
    comes back pins the protocol version and has no [encrypt] key. *)
Theorem C4_azure_encrypt_key_left_out :
  exists cfg, outcome (get_db_config env_azure_plain) = Ok cfg
              /\ cfg !! "server" = Some (PStr "foo.database.windows.net")
              /\ cfg !! "tds_version" = Some (PStr "7.4")
              /\ cfg !! "encrypt" = None.
Proof.
  destruct (sql_auth_run env_azure_plain) as [_ (cfg & Hrun & _)];
    [by vm_compute..|].
  exists cfg. split; [done|].
  rewrite (get_db_config_server _ _ Hrun), (get_db_config_tds_version _ _ Hrun),
    (get_db_config_encrypt _ _ Hrun).
  by vm_compute.
Qed.

(** C5, as amended: without integrated authentication, [get_db_config]
    raises the fixed [ValueError] exactly when user, password or database
    is absent or empty, and returns a record otherwise; the exception
    carries that fixed message only, and the values at hand are written
    to the error log. *)
Theorem C5_sql_auth_missing_configuration (environ : gmap string string) :
  Str.lower (getenv_or environ "MSSQL_WINDOWS_AUTH" "false") <> "true" ->
  (outcome (get_db_config environ)
   = Raise (ValueError "Missing required database configuration")
   <-> missing_fields environ <> []) /\
  ((exists cfg, outcome (get_db_config environ) = Ok cfg)
   <-> missing_fields environ = []) /\
  (missing_fields environ <> [] ->
   In (current_values environ) (logged (get_db_config environ))).
Proof.
  intros Hmode%env_flag_false.
  destruct (sql_auth_run environ Hmode) as [Hfail Hok].
  split; [|split].
  - split; [|done]. intros Hrun Hnil.
    destruct (Hok Hnil) as (cfg & Hcfg & _). congruence.
  - split.
    + intros (cfg & Hcfg).
      destruct (missing_fields environ) eqn:Hm; [done|].
      rewrite Hfail in Hcfg; done.
    + intros Hnil. destruct (Hok Hnil) as (cfg & Hcfg & _). eauto.
  - by apply sql_auth_failure_logged.
Qed.

Lemma C5_sql_auth_missing_configuration_witness :
  outcome (get_db_config env_no_user)
  = Raise (ValueError "Missing required database configuration").
Proof.
  apply (proj1 (C5_sql_auth_missing_configuration env_no_user
                  ltac:(vm_compute; discriminate))).
  vm_compute. discriminate.
Defined.

(** C5, as stated, fails: two environments that lack different fields
    raise the very same exception, so no reading of the exception tells
    which fields are missing. *)
Lemma C5_error_does_not_name_fields :
  missing_fields env_no_user = ["MSSQL_USER"] /\
  missing_fields env_no_password = ["MSSQL_PASSWORD"] /\
  outcome (get_db_config env_no_user)
  = Raise (ValueError "Missing required database configuration") /\
  outcome (get_db_config env_no_password)
  = Raise (ValueError "Missing required database configuration") /\
  ~ (exists report : exn -> list string,
       forall environ e,
         outcome (get_db_config environ) = Raise e ->
         report e = missing_fields environ).
Proof.
  assert (outcome (get_db_config env_no_user) = Raise (ValueError missing_msg)) as H1.
  { apply sql_auth_run; by vm_compute. }
  assert (outcome (get_db_config env_no_password) = Raise (ValueError missing_msg)) as H2.
  { apply sql_auth_run; by vm_compute. }
  repeat split; try done.
  intros (report & Hreport).
  pose proof (Hreport _ _ H1) as E1. pose proof (Hreport _ _ H2) as E2.
  rewrite E1 in E2. by vm_compute in E2.
Qed.

(** C6: with [MSSQL_WINDOWS_AUTH] reading true, [get_db_config] raises the
    [ValueError] exactly when the database is absent or empty, raises
    nothing else, and a record that comes back has neither a [user] nor a
    [password] key, whatever the environment holds for them. *)
Theorem C6_windows_auth_drops_credentials (environ : gmap string string) :
  Str.lower (getenv_or environ "MSSQL_WINDOWS_AUTH" "false") = "true" ->
  (outcome (get_db_config environ)
   = Raise (ValueError "Missing required database configuration")
   <-> is_missing environ "MSSQL_DATABASE" = true) /\
  (forall e, outcome (get_db_config environ) = Raise e ->
     is_missing environ "MSSQL_DATABASE" = true) /\
  (is_missing environ "MSSQL_DATABASE" = false ->
     exists cfg, outcome (get_db_config environ) = Ok cfg) /\
  (forall cfg, outcome (get_db_config environ) = Ok cfg ->
     cfg !! "user" = None /\ cfg !! "password" = None).
Proof.
  intros Hmode%env_flag_true.
  destruct (integrated_auth_run environ Hmode) as [Hfail Hok].
  assert (forall e, outcome (get_db_config environ) = Raise e ->
            is_missing environ "MSSQL_DATABASE" = true) as Hraise.
  { intros e He. destruct (is_missing environ "MSSQL_DATABASE"); [done|].
    destruct Hok as (cfg & Hcfg & _); [done|]. congruence. }
  split; [|split; [|split]].
  - split; [apply Hraise | done].
  - done.
  - intros Hdb. destruct (Hok Hdb) as (cfg & Hcfg & _). eauto.
  - intros cfg Hcfg.
    destruct (is_missing environ "MSSQL_DATABASE") eqn:Hdb.
    + rewrite Hfail in Hcfg; done.
    + destruct Hok as (cfg' & Hcfg' & Hu & Hp); [done|].
      rewrite Hcfg in Hcfg'. by injection Hcfg' as <-.
Qed.

Lemma C6_windows_auth_drops_credentials_witness :
  exists cfg, outcome (get_db_config env_windows) = Ok cfg.
Proof.
  apply (C6_windows_auth_drops_credentials env_windows
           ltac:(vm_compute; reflexivity)).
  vm_compute. reflexivity.
Defined.

(** C7, at a LocalDB server whose instance name contains the prefix once
    more: stripping the prefix leaves [a(localdb)\b], while the record
    holds [.\ab], every occurrence of the prefix having been removed. *)
Theorem C7_localdb_prefix_removed_everywhere :
  Str.startswith "(localdb)\a(localdb)\b" localdb_prefix = true /\
  strip_prefix "(localdb)\a(localdb)\b" localdb_prefix = "a(localdb)\b" /\
  exists cfg, outcome (get_db_config env_localdb_twice) = Ok cfg
              /\ cfg !! "server" = Some (PStr ".\ab")
              /\ cfg !! "server" <> Some (PStr ".\a(localdb)\b").
Proof.
  split; [reflexivity|]. split; [reflexivity|].
  destruct (sql_auth_run env_localdb_twice) as [_ (cfg & Hrun & _)];
    [by vm_compute..|].
  exists cfg. split; [done|].
  rewrite (get_db_config_server _ _ Hrun). by vm_compute.
Qed.

(** The rest of C7 holds: a LocalDB server with a plain instance name is
    rewritten to [.\] and the instance name, and any other server passes
    through. *)
Lemma get_db_config_localdb (environ : gmap string string)
    (cfg : gmap string pyval) (instance : string) :
  outcome (get_db_config environ) = Ok cfg ->
  environ !! "MSSQL_SERVER" = Some (localdb_prefix +:+ instance) ->
  Str.contains instance localdb_prefix = false ->
  cfg !! "server" = Some (PStr (".\" +:+ strip_prefix (localdb_prefix +:+ instance) localdb_prefix)).
Proof.
  intros Hrun Hs Hinst. rewrite (get_db_config_server _ _ Hrun).
  rewrite strip_prefix_app.
  rewrite (resolved_server_localdb environ instance); [done| |done].
  unfold getenv_or. by rewrite Hs.
Qed.

Lemma get_db_config_plain_server (environ : gmap string string)
    (cfg : gmap string pyval) (server : string) :
  outcome (get_db_config environ) = Ok cfg ->
  environ !! "MSSQL_SERVER" = Some server ->
  Str.startswith server localdb_prefix = false ->
  cfg !! "server" = Some (PStr server).
Proof.
  intros Hrun Hs Hpre. rewrite (get_db_config_server _ _ Hrun).
  rewrite resolved_server_other; unfold getenv_or; by rewrite Hs.
Qed.

Example localdb_default_instance :
  exists cfg, outcome (get_db_config env_localdb) = Ok cfg
              /\ cfg !! "server" = Some (PStr ".\MSSQLLocalDB").
Proof.
  destruct (sql_auth_run env_localdb) as [_ (cfg & Hrun & _)];
    [by vm_compute..|].
  exists cfg. split; [done|].
  by rewrite (get_db_config_localdb _ _ "MSSQLLocalDB" Hrun).
Qed.

(** C8: a record that comes back has [tds_version] set to [7.4] when its
    server contains [.database.windows.net], and has no such key when it
    does not. *)
Theorem C8_tds_version_iff_azure (environ : gmap string string)
    (cfg : gmap string pyval) :
  outcome (get_db_config environ) = Ok cfg ->
  exists server,
    cfg !! "server" = Some (PStr server) /\
    (cfg !! "tds_version" = Some (PStr "7.4")
     <-> exists pre post, server = pre +:+ ".database.windows.net" +:+ post) /\
    (cfg !! "tds_version" = None
     <-> ~ exists pre post, server = pre +:+ ".database.windows.net" +:+ post).
Proof.
  intros Hrun. exists (resolved_server environ).
  split; [by apply get_db_config_server|].
  rewrite (get_db_config_tds_version _ _ Hrun).
  rewrite <- (contains_spec (resolved_server environ) ".database.windows.net").
  fold azure_suffix.
  destruct (Str.contains (resolved_server environ) azure_suffix).
  - split; [done|]. split; [done|]. by intros [].
  - split; [done|]. split; [|done]. by intros _ ?.
Qed.

Lemma C8_tds_version_iff_azure_witness :
  exists server,
    with_encrypt env_azure !! "server" = Some (PStr server) /\
    (with_encrypt env_azure !! "tds_version" = Some (PStr "7.4")
     <-> exists pre post, server = pre +:+ ".database.windows.net" +:+ post) /\
    (with_encrypt env_azure !! "tds_version" = None
     <-> ~ exists pre post, server = pre +:+ ".database.windows.net" +:+ post).
Proof.
  apply (C8_tds_version_iff_azure env_azure (with_encrypt env_azure)).
  vm_compute. reflexivity.
Defined.

Example azure_defaults :
  exists cfg, outcome (get_db_config env_azure) = Ok cfg
              /\ cfg !! "tds_version" = Some (PStr "7.4")
              /\ cfg !! "encrypt" = Some (PBool true).
Proof.
  destruct (sql_auth_run env_azure) as [_ (cfg & Hrun & _)];
    [by vm_compute..|].
  exists cfg. split; [done|].
  rewrite (get_db_config_tds_version _ _ Hrun), (get_db_config_encrypt _ _ Hrun).
  by vm_compute.
Qed.

(** C9: [get_command] is total; it returns the value of [MSSQL_COMMAND]
    as it stands when the variable is set, and [execute_sql] when it is
    not. *)
Theorem C9_get_command (environ : gmap string string) :
  (forall v, environ !! "MSSQL_COMMAND" = Some v -> get_command environ = v) /\
  (environ !! "MSSQL_COMMAND" = None -> get_command environ = "execute_sql").
Proof. unfold get_command, getenv_or. split; [intros v ->|intros ->]; done. Qed.

Lemma C9_get_command_witness :
  get_command (<["MSSQL_COMMAND" := "DROP it; --"]> ∅) = "DROP it; --" /\
  get_command ∅ = "execute_sql".
Proof.
  split.
  - apply (proj1 (C9_get_command (<["MSSQL_COMMAND" := "DROP it; --"]> ∅))).
    vm_compute. reflexivity.
  - apply (proj2 (C9_get_command ∅)). vm_compute. reflexivity.
Defined.

(** C10: a value of [MSSQL_WINDOWS_AUTH] selects integrated authentication
    when its lower-casing is [true] and SQL authentication when it is
    not; a value of [MSSQL_ENCRYPT] yields [encrypt = True] when its
    lower-casing is [true] and never otherwise; the values that lower to
    [true] are its spellings in any mix of cases, so [TRUE] and [True]
    count as true and [1], [yes], [on] and the empty string as false. *)
Theorem C10_flags_compare_lowercase (environ : gmap string string) :
  (forall v, environ !! "MSSQL_WINDOWS_AUTH" = Some v ->
     (Str.lower v = "true" -> runs_integrated_auth environ) /\
     (Str.lower v <> "true" -> runs_sql_auth environ)) /\
  (forall v cfg, environ !! "MSSQL_ENCRYPT" = Some v ->
     outcome (get_db_config environ) = Ok cfg ->
     (Str.lower v = "true" -> cfg !! "encrypt" = Some (PBool true)) /\
     (Str.lower v <> "true" -> cfg !! "encrypt" <> Some (PBool true))) /\
  (forall v, Str.lower v = "true" <-> case_variant "true" v = true) /\
  Forall (fun v => Str.lower v <> "true") ["1"; "yes"; "on"; ""] /\
  Forall (fun v => Str.lower v = "true") ["true"; "TRUE"; "True"].
Proof.
  split; [|split; [|split; [|split]]].
  - intros v Hv. split; intros Hlow.
    + apply integrated_auth_run, env_flag_true. unfold getenv_or. by rewrite Hv.
    + apply sql_auth_run, env_flag_false. unfold getenv_or. by rewrite Hv.
  - intros v cfg Hv Hrun. rewrite (get_db_config_encrypt _ _ Hrun).
    unfold env_flag, getenv_or. rewrite Hv. split; intros Hlow.
    + apply String.eqb_eq in Hlow. rewrite Hlow. by case_match.
    + apply String.eqb_neq in Hlow. rewrite Hlow. by case_match.
  - apply lower_true.
  - repeat constructor; by vm_compute.
  - repeat constructor.
Qed.

Lemma C10_flags_compare_lowercase_witness : runs_integrated_auth env_flags.
Proof.
  apply (proj1 (proj1 (C10_flags_compare_lowercase env_flags) "TRUE"
                  ltac:(vm_compute; reflexivity))).
  vm_compute. reflexivity.
Defined.

Example encrypt_flag_yes :
  exists cfg, outcome (get_db_config (<["MSSQL_ENCRYPT" := "yes"]> env_sql)) = Ok cfg
              /\ cfg !! "encrypt" = Some (PBool false).
Proof.
  destruct (sql_auth_run (<["MSSQL_ENCRYPT" := "yes"]> env_sql))
    as [_ (cfg & Hrun & _)]; [by vm_compute..|].
  exists cfg. split; [done|].
  rewrite (get_db_config_encrypt _ _ Hrun). by vm_compute.
Qed.

(** * Further properties *)

(** ** [validate_table_name]: what comes back *)

(** The two ways a name is accepted, with the quoted identifier of each. *)
Lemma validate_ok_cases (s out : string) :
  validate_table_name s = Ok out ->
  exists a tail, spec_part a = true /\ Re.at_end tail = true /\
    ((s = a +:+ tail /\ out = "[" +:+ (a +:+ tail) +:+ "]") \/
     exists b, spec_part b = true /\ s = a +:+ String "." (b +:+ tail)
               /\ out = "[" +:+ a +:+ "].[" +:+ (b +:+ tail) +:+ "]").
Proof.
  intros Hout.
  destruct (Re.matches table_name_re s) eqn:Hm.
  - apply table_name_re_spec in Hm as (a & tail & Ha & Hend & [-> | (b & Hb & ->)]).
    + rewrite validate_one_part in Hout by done. injection Hout as <-.
      exists a, tail. auto.
    + rewrite validate_two_parts in Hout by done. injection Hout as <-.
      exists a, tail. split; [done|]. split; [done|]. right. by exists b.
  - by rewrite validate_rejects in Hout.
Qed.

Lemma drop_brackets_app (a b : string) :
  drop_brackets (a +:+ b) = drop_brackets a +:+ drop_brackets b.
Proof.
  induction a as [|c a IH]; [done|].
  rewrite app_cons. cbn [drop_brackets]. rewrite IH. by destruct (is_bracket c).
Qed.

Lemma drop_brackets_clean (s : string) :
  Str.all (fun c => negb (is_bracket c)) s = true -> drop_brackets s = s.
Proof.
  induction s as [|c s IH]; [done|]. cbn [Str.all drop_brackets].
  intros [Hc Hs]%andb_true_iff. apply negb_true_iff in Hc. rewrite Hc.
  by rewrite IH.
Qed.

Lemma word_char_not_bracket (c : ascii) :
  spec_word_char c = true -> negb (is_bracket c) = true.
Proof. by destruct c as [[] [] [] [] [] [] [] []]. Qed.

Lemma part_no_bracket (s : string) :
  spec_part s = true -> Str.all (fun c => negb (is_bracket c)) s = true.
Proof.
  intros [_ H]%andb_true_iff. eapply all_impl; [|done].
  apply word_char_not_bracket.
Qed.

Lemma at_end_no_bracket (tail : string) :
  Re.at_end tail = true -> Str.all (fun c => negb (is_bracket c)) tail = true.
Proof. by intros [-> | ->]%at_end_spec. Qed.

Lemma drop_brackets_part (a : string) :
  spec_part a = true -> drop_brackets a = a.
Proof. intros Ha. by apply drop_brackets_clean, part_no_bracket. Qed.

Lemma drop_brackets_tail (tail : string) :
  Re.at_end tail = true -> drop_brackets tail = tail.
Proof. intros Ht. by apply drop_brackets_clean, at_end_no_bracket. Qed.

Lemma validate_unquote (s out : string) :
  validate_table_name s = Ok out -> drop_brackets out = s.
Proof.
  intros (a & tail & Ha & Hend & [[-> ->] | (b & Hb & -> & ->)])%validate_ok_cases.
  - rewrite !drop_brackets_app, (drop_brackets_part a Ha),
      (drop_brackets_tail tail Hend).
    change (drop_brackets "[") with "". change (drop_brackets "]") with "".
    by rewrite app_empty_l, app_empty_r.
  - rewrite !drop_brackets_app, (drop_brackets_part a Ha),
      (drop_brackets_part b Hb), (drop_brackets_tail tail Hend).
    change (drop_brackets "[") with "". change (drop_brackets "]") with "".
    change (drop_brackets "].[") with ".".
    by rewrite app_empty_l, app_empty_r.
Qed.

Lemma part_quoted (s : string) :
  spec_part s = true -> Str.all quoted_char s = true.
Proof.
  intros [_ H]%andb_true_iff. eapply all_impl; [|done].
  intros c Hc. unfold quoted_char. by rewrite Hc.
Qed.

Lemma at_end_quoted (tail : string) :
  Re.at_end tail = true -> Str.all quoted_char tail = true.
Proof. by intros [-> | ->]%at_end_spec. Qed.

(** X1: [validate_table_name] returns a quoted identifier exactly for the
    names that are one part or two parts joined by a dot, each taken with
    or without one line feed at the very end; every other name is
    refused. *)
Theorem X1_validate_accepts_iff (s : string) :
  (exists out, validate_table_name s = Ok out) <->
  (exists t tail, s = t +:+ tail /\ spec_shape t = true
                  /\ (tail = "" \/ tail = String Str.LF "")).
Proof.
  split.
  - intros (out & Hout).
    destruct (Re.matches table_name_re s) eqn:Hm;
      [|by rewrite validate_rejects in Hout].
    apply table_name_re_shape in Hm as (t & tail & -> & Ht & Hend%at_end_spec).
    by exists t, tail.
  - intros (t & tail & -> & Ht & Hend%at_end_spec).
    assert (Re.matches table_name_re (t +:+ tail) = true) as Hm.
    { apply table_name_re_shape. by exists t, tail. }
    unfold validate_table_name. rewrite Hm. cbn [negb].
    destruct (Nat.eqb _ 2); eauto.
Qed.

(** X2: a name in which any character other than an ASCII letter, a
    digit, an underscore, a dot or a line feed occurs, at any position, is
    refused with the error that carries the name. *)
Theorem X2_validate_refuses_foreign_char (pre post : string) (c : ascii) :
  spec_word_char c = false -> c <> "."%char -> c <> Str.LF ->
  validate_table_name (pre +:+ String c post)
  = Raise (ValueError ("Invalid table name: " +:+ pre +:+ String c post)).
Proof. apply validate_refuses_char. Qed.

Lemma X2_validate_refuses_foreign_char_witness :
  validate_table_name ("users" +:+ String ";" " DROP TABLE x")
  = Raise (ValueError ("Invalid table name: " +:+ "users" +:+ String ";" " DROP TABLE x")).
Proof.
  apply (X2_validate_refuses_foreign_char "users" " DROP TABLE x" ";");
    [reflexivity | discriminate | discriminate].
Defined.

(** X3: a name that splits at its dots into three or more segments is
    refused. *)
Theorem X3_validate_refuses_three_segments (s : string) :
  (3 <= length (Str.split "." s))%nat ->
  validate_table_name s = Raise (ValueError ("Invalid table name: " +:+ s)).
Proof. apply validate_refuses_segments. Qed.

Lemma X3_validate_refuses_three_segments_witness :
  validate_table_name "db.dbo.users"
  = Raise (ValueError ("Invalid table name: " +:+ "db.dbo.users")).
Proof.
  apply (X3_validate_refuses_three_segments "db.dbo.users"). simpl. lia.
Defined.

(** X4: taking the square brackets away from the identifier that
    [validate_table_name] returns gives the name back. *)
Theorem X4_validate_unquote (s out : string) :
  validate_table_name s = Ok out -> drop_brackets out = s.
Proof. apply validate_unquote. Qed.

Lemma X4_validate_unquote_witness : drop_brackets "[dbo].[users]" = "dbo.users".
Proof. apply (X4_validate_unquote "dbo.users" "[dbo].[users]"). reflexivity. Defined.

(** X5: [validate_table_name] is injective where it succeeds: two names
    that get the same quoted identifier are the same name. *)
Theorem X5_validate_injective (s1 s2 out : string) :
  validate_table_name s1 = Ok out ->
  validate_table_name s2 = Ok out ->
  s1 = s2.
Proof.
  intros H1%validate_unquote H2%validate_unquote. congruence.
Qed.

Lemma X5_validate_injective_witness : "dbo.users" = "dbo.users".
Proof.
  apply (X5_validate_injective "dbo.users" "dbo.users" "[dbo].[users]");
    reflexivity.
Defined.

(** X6: a quoted identifier is never accepted as a name: applying
    [validate_table_name] to its own result raises. *)
Theorem X6_validate_refuses_own_output (s out : string) :
  validate_table_name s = Ok out ->
  validate_table_name out = Raise (ValueError ("Invalid table name: " +:+ out)).
Proof.
  intros (a & tail & Ha & Hend & [[_ ->] | (b & Hb & _ & ->)])%validate_ok_cases;
    by apply (validate_refuses_char "" _ "[").
Qed.

Lemma X6_validate_refuses_own_output_witness :
  validate_table_name "[users]" = Raise (ValueError ("Invalid table name: " +:+ "[users]")).
Proof. apply (X6_validate_refuses_own_output "users" "[users]"). reflexivity. Defined.

(** X7: the identifier that comes back opens and closes with a square
    bracket and is made of ASCII letters, digits, underscores, square
    brackets, dots and line feeds only. *)
Theorem X7_validate_output_alphabet (s out : string) :
  validate_table_name s = Ok out ->
  (exists body, out = "[" +:+ body +:+ "]") /\ Str.all quoted_char out = true.
Proof.
  intros (a & tail & Ha & Hend & [[_ ->] | (b & Hb & _ & ->)])%validate_ok_cases.
  - split; [by eexists|].
    by rewrite !all_app, (part_quoted a Ha), (at_end_quoted tail Hend).
  - split.
    + exists (a +:+ "].[" +:+ b +:+ tail). by rewrite !app_assoc_str.
    + by rewrite !all_app, (part_quoted a Ha), (part_quoted b Hb),
        (at_end_quoted tail Hend).
Qed.

Lemma X7_validate_output_alphabet_witness :
  (exists body, "[dbo].[users]" = "[" +:+ body +:+ "]")
  /\ Str.all quoted_char "[dbo].[users]" = true.
Proof.
  apply (X7_validate_output_alphabet "dbo.users" "[dbo].[users]"). reflexivity.
Defined.

(** ** [get_db_config]: the log in full *)

Lemma run_bind_ok {A B} (m : Eff A) (f : A -> Eff B) (a : A) :
  outcome m = Ok a -> logged (bind m f) = logged m ++ logged (f a).
Proof. intros Hm. by rewrite logged_bind, Hm. Qed.

Lemma logged_emit_bind {B} (lvl : level) (msg : string) (f : unit -> Eff B) :
  logged (bind (emit lvl msg) f) = (lvl, msg) :: logged (f tt).
Proof. by rewrite logged_bind. Qed.

Lemma logged_ret_bind {A B} (a : A) (f : A -> Eff B) :
  logged (bind (ret a) f) = logged (f a).
Proof. by rewrite logged_bind. Qed.

(** The stage guarded by [c] logs [v]. *)
Ltac stage_log c v :=
  match goal with
  | |- context [logged (if c then ?x else ?y)] =>
      let H := fresh in
      assert (logged (if c then x else y) = v) as H; [ | rewrite H; clear H ]
  end.

(** [get_db_config] logs [resolved_log]. *)
Lemma get_db_config_logged (environ : gmap string string) :
  logged (get_db_config environ) = resolved_log environ.
Proof.
  unfold get_db_config, resolved_log.
  destruct (lookup_initial_config environ) as (Hs & Hu & Hp & Hd & _).
  destruct (lookup_with_encrypt_env environ) as (_ & Hu' & Hp' & Hd').
  rewrite !logged_emit_bind.
  rewrite (run_bind_ok _ _ (resolved_server environ)).
  2:{ unfold resolved_server. by destruct (Str.startswith _ _). }
  fold (initial_config environ).
  rewrite (getitem_lookup _ _ _ Hu), (getitem_lookup _ _ _ Hd),
    (getitem_lookup _ _ _ Hp).
  repeat (rewrite ?logged_ret_bind, ?logged_emit_bind; cbv beta).
  rewrite (run_bind_ok _ _ (with_port environ)).
  2:{ unfold with_port. repeat case_match; by eff_simpl. }
  rewrite (getitem_lookup _ "server" (PStr (resolved_server environ)))
    by by rewrite lookup_with_port.
  rewrite logged_ret_bind.
  rewrite (run_bind_ok _ _ (Str.contains (resolved_server environ) azure_suffix))
    by apply azure_check.
  rewrite (run_bind_ok _ _ (with_encrypt environ)).
  2:{ unfold with_encrypt, env_flag. repeat case_match; by eff_simpl. }
  unfold server_log, values_log.
  stage_log (Str.startswith (getenv_or environ "MSSQL_SERVER" "localhost") localdb_prefix)
    (if Str.startswith (getenv_or environ "MSSQL_SERVER" "localhost") localdb_prefix
     then [(INFO, "Detected LocalDB connection, converted to: "
                  +:+ resolved_server environ)]
     else []).
  { unfold resolved_server. by destruct (Str.startswith _ _). }
  stage_log (truthy (getenv environ "MSSQL_PORT")) (port_log environ).
  { unfold port_log. repeat case_match; done. }
  stage_log (truthy (PStr (resolved_server environ))) (@nil log_record).
  { by destruct (resolved_server environ). }
  stage_log (Str.contains (resolved_server environ) azure_suffix) (@nil log_record).
  { repeat case_match; done. }
  fold (env_flag environ "MSSQL_WINDOWS_AUTH" "false").
  stage_log (env_flag environ "MSSQL_WINDOWS_AUTH" "false") (auth_log environ).
  { unfold auth_log.
    rewrite (getitem_lookup _ _ _ Hu'), (getitem_lookup _ _ _ Hd'),
      (getitem_lookup _ _ _ Hp').
    destruct (env_flag environ "MSSQL_WINDOWS_AUTH" "false").
    - rewrite logged_ret_bind.
      by destruct (truthy (getenv environ "MSSQL_DATABASE")).
    - rewrite !logged_ret_bind, logged_emit_bind.
      by destruct (py_all _). }
  cbn [app]. by rewrite ?app_nil_l, ?app_nil_r, <- ?app_assoc.
Qed.

(** The levels of the four parts of the log. *)
Lemma server_log_level (environ : gmap string string) (lvl : level) (msg : string) :
  In (lvl, msg) (server_log environ) -> lvl = INFO.
Proof.
  unfold server_log. rewrite in_app_iff. cbn [In].
  destruct (Str.startswith _ _); cbn [In]; intros H;
    repeat destruct H as [H|H]; try done; by injection H.
Qed.

Lemma values_log_level (environ : gmap string string) (lvl : level) (msg : string) :
  In (lvl, msg) (values_log environ) -> lvl = INFO.
Proof.
  unfold values_log. cbn [In]. intros H.
  repeat destruct H as [H|H]; try done; by injection H.
Qed.

Lemma port_log_spec (environ : gmap string string) (lvl : level) (msg : string) :
  In (lvl, msg) (port_log environ) <->
  exists p, environ !! "MSSQL_PORT" = Some p /\ p <> "" /\ py_int p = None
            /\ lvl = WARNING
            /\ msg = "Invalid MSSQL_PORT value: " +:+ p +:+ ". Using default port.".
Proof.
  unfold port_log, getenv.
  destruct (environ !! "MSSQL_PORT") as [p|]; cbn [truthy py_str].
  - destruct p as [|c p]; cbn [Str.is_empty negb].
    + split; [done|]. by intros (p & [= <-] & ? & _).
    + destruct (py_int (String c p)) eqn:Hint; cbn [In].
      * split; [done|]. intros (q & [= <-] & _ & ? & _). congruence.
      * split.
        -- intros [[= <- <-]|[]]. by exists (String c p).
        -- intros (q & [= <-] & _ & _ & -> & ->). by left.
  - split; [done|]. by intros (p & ? & _).
Qed.

Lemma auth_log_level (environ : gmap string string) (lvl : level) (msg : string) :
  In (lvl, msg) (auth_log environ) -> lvl = INFO \/ lvl = ERROR.
Proof.
  unfold auth_log, current_values.
  repeat case_match; cbn [In]; intros Hin;
    repeat destruct Hin as [Hin|Hin]; try done; injection Hin as <- _; auto.
Qed.

(** An ERROR record is in the log exactly when the run fails. *)
Lemma auth_log_error (environ : gmap string string) :
  (exists msg, In (ERROR, msg) (auth_log environ)) <->
  (exists e, resolved environ = Raise e).
Proof.
  unfold auth_log, resolved, current_values.
  destruct (env_flag environ "MSSQL_WINDOWS_AUTH" "false").
  - destruct (truthy (getenv environ "MSSQL_DATABASE")); cbn [In].
    + split; [|by intros (e & ?)].
      intros (msg & H). repeat destruct H as [H|H]; done.
    + split; [by eexists|]. intros _. eexists. by left.
  - destruct (py_all _); cbn [In].
    + split; [|by intros (e & ?)].
      intros (msg & H). repeat destruct H as [H|H]; done.
    + split; [by eexists|]. intros _. eexists. right. by left.
Qed.

(** ** [get_db_config]: what it reads *)

Lemma with_encrypt_frame (environ : gmap string string) (k v : string) :
  k <> "MSSQL_SERVER" -> k <> "MSSQL_USER" -> k <> "MSSQL_PASSWORD" ->
  k <> "MSSQL_DATABASE" -> k <> "MSSQL_PORT" -> k <> "MSSQL_ENCRYPT" ->
  with_encrypt (<[k := v]> environ) = with_encrypt environ.
Proof.
  intros. unfold with_encrypt, with_port, initial_config, resolved_server,
    env_flag, getenv, getenv_or.
  by rewrite !lookup_insert_ne by done.
Qed.

Lemma not_in_config_variables (k : string) :
  ~ In k config_variables ->
  k <> "MSSQL_SERVER" /\ k <> "MSSQL_USER" /\ k <> "MSSQL_PASSWORD" /\
  k <> "MSSQL_DATABASE" /\ k <> "MSSQL_PORT" /\ k <> "MSSQL_ENCRYPT" /\
  k <> "MSSQL_WINDOWS_AUTH".
Proof.
  intros Hk. repeat split; intros ->; apply Hk; cbn [config_variables In]; tauto.
Qed.

Lemma success_database (environ : gmap string string) (cfg : gmap string pyval) :
  outcome (get_db_config environ) = Ok cfg ->
  is_missing environ "MSSQL_DATABASE" = false.
Proof.
  intros [(_ & Hdb & _) | (_ & Hm & _)]%success_inv; [done|].
  unfold missing_fields in Hm. cbn [List.filter] in Hm.
  destruct (is_missing environ "MSSQL_DATABASE"); [|done].
  by repeat case_match.
Qed.

Lemma not_missing (environ : gmap string string) (name : string) :
  is_missing environ name = false ->
  exists v, environ !! name = Some v /\ v <> "" /\ getenv environ name = PStr v.
Proof.
  unfold is_missing, getenv. destruct (environ !! name) as [v|]; [|done].
  intros Hv. exists v. by destruct v.
Qed.

Lemma success_database_lookup (environ : gmap string string)
    (cfg : gmap string pyval) :
  outcome (get_db_config environ) = Ok cfg ->
  exists d, cfg !! "database" = Some (PStr d).
Proof.
  intros Hrun.
  destruct (not_missing _ _ (success_database _ _ Hrun)) as (d & _ & _ & Hget).
  exists d. rewrite (success_lookup _ _ _ Hrun) by done.
  destruct (lookup_with_encrypt_env environ) as (_ & _ & _ & ->).
  by rewrite Hget.
Qed.

(** The record of a run that succeeds, in each mode. *)
Lemma sql_run_record (environ : gmap string string) :
  env_flag environ "MSSQL_WINDOWS_AUTH" "false" = false ->
  missing_fields environ = [] ->
  outcome (get_db_config environ) = Ok (with_encrypt environ).
Proof.
  intros Hmode Hm. rewrite get_db_config_outcome. unfold resolved.
  rewrite Hmode. apply py_all_missing in Hm. by rewrite Hm.
Qed.

Lemma windows_run_record (environ : gmap string string) :
  env_flag environ "MSSQL_WINDOWS_AUTH" "false" = true ->
  is_missing environ "MSSQL_DATABASE" = false ->
  outcome (get_db_config environ)
  = Ok (delete "password" (delete "user" (with_encrypt environ))).
Proof.
  intros Hmode Hdb. rewrite get_db_config_outcome. unfold resolved.
  by rewrite Hmode, truthy_getenv, Hdb.
Qed.

(** * Further properties of [get_db_config] *)

(** X8: whatever the environment, the only exception [get_db_config]
    raises is the [ValueError] with the fixed message; no subscript of the
    record and no substring test on the server ever fails. *)
Theorem X8_only_missing_configuration_raised (environ : gmap string string)
    (e : exn) :
  outcome (get_db_config environ) = Raise e ->
  e = ValueError "Missing required database configuration".
Proof. apply failure_inv. Qed.

Lemma X8_only_missing_configuration_raised_witness :
  ValueError "Missing required database configuration"
  = ValueError "Missing required database configuration".
Proof.
  symmetry.
  apply (X8_only_missing_configuration_raised env_no_user
           (ValueError "Missing required database configuration")).
  vm_compute. reflexivity.
Defined.

(** X9: the port of a returned record is the string [1433] when
    [MSSQL_PORT] is unset, the empty string when it is set to the empty
    string, the integer it reads as when [int] accepts it, and otherwise
    the text of the variable unchanged. *)
Theorem X9_port_value (environ : gmap string string) (cfg : gmap string pyval) :
  outcome (get_db_config environ) = Ok cfg ->
  cfg !! "port" =
  Some (match environ !! "MSSQL_PORT" with
        | None => PStr "1433"
        | Some p =>
            if Str.is_empty p then PStr p
            else match py_int p with
                 | Some n => PInt n
                 | None => PStr p
                 end
        end).
Proof. apply get_db_config_port. Qed.

Lemma X9_port_value_witness :
  with_encrypt (<["MSSQL_PORT" := " 14_33"]> env_sql) !! "port" = Some (PInt 1433).
Proof.
  rewrite (X9_port_value (<["MSSQL_PORT" := " 14_33"]> env_sql)
             (with_encrypt (<["MSSQL_PORT" := " 14_33"]> env_sql)));
    [vm_compute; reflexivity | apply sql_run_record; vm_compute; reflexivity].
Defined.

(** X10: a WARNING record is logged exactly when [MSSQL_PORT] is set, not
    empty and not readable as an integer, and the record then names the
    value and announces the default port. *)
Theorem X10_port_warning_iff (environ : gmap string string) (msg : string) :
  In (WARNING, msg) (logged (get_db_config environ)) <->
  exists p, environ !! "MSSQL_PORT" = Some p /\ p <> "" /\ py_int p = None
            /\ msg = "Invalid MSSQL_PORT value: " +:+ p +:+ ". Using default port.".
Proof.
  rewrite get_db_config_logged. unfold resolved_log. rewrite !in_app_iff.
  rewrite port_log_spec. split.
  - intros [H | [H | [(p & ? & ? & ? & _ & ?) | H]]].
    + by apply server_log_level in H.
    + by apply values_log_level in H.
    + by exists p.
    + by apply auth_log_level in H as [?|?].
  - intros (p & ? & ? & ? & ?). right. right. left. by exists p.
Qed.

(** X11: when [MSSQL_ENCRYPT] is unset, a returned record always has the
    [encrypt] key, true for a server that contains
    [.database.windows.net] and false for any other. *)
Theorem X11_encrypt_default (environ : gmap string string)
    (cfg : gmap string pyval) :
  outcome (get_db_config environ) = Ok cfg ->
  environ !! "MSSQL_ENCRYPT" = None ->
  exists server, cfg !! "server" = Some (PStr server)
    /\ cfg !! "encrypt" = Some (PBool (Str.contains server ".database.windows.net")).
Proof.
  intros Hrun He. exists (resolved_server environ).
  split; [by apply get_db_config_server|].
  rewrite (get_db_config_encrypt _ _ Hrun).
  unfold env_flag, getenv_or. rewrite He. fold azure_suffix.
  by destruct (Str.contains _ _).
Qed.

Lemma X11_encrypt_default_witness :
  exists server, with_encrypt env_azure !! "server" = Some (PStr server)
    /\ with_encrypt env_azure !! "encrypt"
       = Some (PBool (Str.contains server ".database.windows.net")).
Proof.
  apply (X11_encrypt_default env_azure (with_encrypt env_azure));
    [apply sql_run_record |]; vm_compute; reflexivity.
Defined.

(** X12: when [MSSQL_ENCRYPT] is set, a server outside Azure gets
    [encrypt] equal to whether the value lower-cases to [true]; an Azure
    server gets [encrypt = True] when it does and no [encrypt] key when it
    does not. *)
Theorem X12_encrypt_override (environ : gmap string string)
    (cfg : gmap string pyval) (v : string) :
  outcome (get_db_config environ) = Ok cfg ->
  environ !! "MSSQL_ENCRYPT" = Some v ->
  exists server, cfg !! "server" = Some (PStr server)
    /\ cfg !! "encrypt" =
       if Str.contains server ".database.windows.net"
       then if String.eqb (Str.lower v) "true" then Some (PBool true) else None
       else Some (PBool (String.eqb (Str.lower v) "true")).
Proof.
  intros Hrun He. exists (resolved_server environ).
  split; [by apply get_db_config_server|].
  rewrite (get_db_config_encrypt _ _ Hrun).
  unfold env_flag, getenv_or. by rewrite He.
Qed.

Lemma X12_encrypt_override_witness :
  exists server, with_encrypt env_azure_plain !! "server" = Some (PStr server)
    /\ with_encrypt env_azure_plain !! "encrypt" =
       if Str.contains server ".database.windows.net"
       then if String.eqb (Str.lower "false") "true" then Some (PBool true) else None
       else Some (PBool (String.eqb (Str.lower "false") "true")).
Proof.
  apply (X12_encrypt_override env_azure_plain (with_encrypt env_azure_plain) "false");
    [apply sql_run_record |]; vm_compute; reflexivity.
Defined.

(** X13: a LocalDB server [(localdb)\name] whose instance name does not
    contain the prefix again is recorded as [.\name]. *)
Theorem X13_server_localdb (environ : gmap string string)
    (cfg : gmap string pyval) (instance : string) :
  outcome (get_db_config environ) = Ok cfg ->
  environ !! "MSSQL_SERVER" = Some ("(localdb)\" +:+ instance) ->
  Str.contains instance "(localdb)\" = false ->
  cfg !! "server" = Some (PStr (".\" +:+ instance)).
Proof.
  intros Hrun Hs Hinst.
  rewrite (get_db_config_localdb environ cfg instance Hrun Hs Hinst).
  by rewrite strip_prefix_app.
Qed.

Lemma X13_server_localdb_witness :
  with_encrypt env_localdb !! "server" = Some (PStr (".\" +:+ "MSSQLLocalDB")).
Proof.
  apply (X13_server_localdb env_localdb (with_encrypt env_localdb) "MSSQLLocalDB");
    [apply sql_run_record | |]; vm_compute; reflexivity.
Defined.

(** X14: a server that does not start with [(localdb)\] is recorded
    unchanged, and an unset [MSSQL_SERVER] is recorded as [localhost]. *)
Theorem X14_server_passthrough (environ : gmap string string)
    (cfg : gmap string pyval) :
  outcome (get_db_config environ) = Ok cfg ->
  (environ !! "MSSQL_SERVER" = None -> cfg !! "server" = Some (PStr "localhost")) /\
  (forall server, environ !! "MSSQL_SERVER" = Some server ->
     Str.startswith server "(localdb)\" = false ->
     cfg !! "server" = Some (PStr server)).
Proof.
  intros Hrun. split.
  - intros Hs. rewrite (get_db_config_server _ _ Hrun).
    unfold resolved_server, getenv_or. by rewrite Hs.
  - intros server Hs Hpre. by apply (get_db_config_plain_server environ).
Qed.

Lemma X14_server_passthrough_witness :
  with_encrypt env_sql !! "server" = Some (PStr "localhost").
Proof.
  apply (proj1 (X14_server_passthrough env_sql (with_encrypt env_sql)
                  ltac:(apply sql_run_record; vm_compute; reflexivity))).
  vm_compute. reflexivity.
Defined.

(** X15: in either authentication mode, a returned record holds the
    value of [MSSQL_DATABASE] under [database], and that value is a
    non-empty string. *)
Theorem X15_database_present (environ : gmap string string)
    (cfg : gmap string pyval) :
  outcome (get_db_config environ) = Ok cfg ->
  exists d, environ !! "MSSQL_DATABASE" = Some d /\ d <> ""
            /\ cfg !! "database" = Some (PStr d).
Proof.
  intros Hrun.
  destruct (not_missing _ _ (success_database _ _ Hrun)) as (d & Hd & Hne & Hget).
  exists d. split; [done|]. split; [done|].
  rewrite (success_lookup _ _ _ Hrun) by done.
  destruct (lookup_with_encrypt_env environ) as (_ & _ & _ & ->).
  by rewrite Hget.
Qed.

Lemma X15_database_present_witness :
  exists d, env_windows !! "MSSQL_DATABASE" = Some d /\ d <> ""
            /\ delete "password" (delete "user" (with_encrypt env_windows)) !! "database"
               = Some (PStr d).
Proof.
  apply (X15_database_present env_windows
           (delete "password" (delete "user" (with_encrypt env_windows)))).
  apply windows_run_record; vm_compute; reflexivity.
Defined.

(** X16: under SQL authentication, a returned record holds the values of
    [MSSQL_USER] and [MSSQL_PASSWORD] under [user] and [password], both
    non-empty strings. *)
Theorem X16_sql_credentials_present (environ : gmap string string)
    (cfg : gmap string pyval) :
  Str.lower (getenv_or environ "MSSQL_WINDOWS_AUTH" "false") <> "true" ->
  outcome (get_db_config environ) = Ok cfg ->
  exists u p,
    environ !! "MSSQL_USER" = Some u /\ u <> "" /\ cfg !! "user" = Some (PStr u) /\
    environ !! "MSSQL_PASSWORD" = Some p /\ p <> "" /\ cfg !! "password" = Some (PStr p).
Proof.
  intros Hmode%env_flag_false Hrun.
  destruct (success_inv _ _ Hrun) as [(Hw & _) | (_ & Hm & ->)]; [congruence|].
  unfold missing_fields in Hm. cbn [List.filter] in Hm.
  destruct (is_missing environ "MSSQL_USER") eqn:Hu; [done|].
  destruct (is_missing environ "MSSQL_PASSWORD") eqn:Hp; [done|].
  destruct (not_missing _ _ Hu) as (u & Heu & Hune & Hgu).
  destruct (not_missing _ _ Hp) as (p & Hep & Hpne & Hgp).
  exists u, p.
  destruct (lookup_with_encrypt_env environ) as (_ & -> & -> & _).
  by rewrite Hgu, Hgp.
Qed.

Lemma X16_sql_credentials_present_witness :
  exists u p,
    env_sql !! "MSSQL_USER" = Some u /\ u <> ""
    /\ with_encrypt env_sql !! "user" = Some (PStr u) /\
    env_sql !! "MSSQL_PASSWORD" = Some p /\ p <> ""
    /\ with_encrypt env_sql !! "password" = Some (PStr p).
Proof.
  apply (X16_sql_credentials_present env_sql (with_encrypt env_sql)).
  - vm_compute. discriminate.
  - apply sql_run_record; vm_compute; reflexivity.
Defined.

(** X17: the log does not depend on the password: two environments that
    differ only in a non-empty [MSSQL_PASSWORD] produce the same records,
    so the password is never written to the log. *)
Theorem X17_password_not_logged (environ : gmap string string) (p1 p2 : string) :
  p1 <> "" -> p2 <> "" ->
  logged (get_db_config (<["MSSQL_PASSWORD" := p1]> environ))
  = logged (get_db_config (<["MSSQL_PASSWORD" := p2]> environ)).
Proof.
  intros H1 H2. rewrite !get_db_config_logged.
  unfold resolved_log, server_log, values_log, port_log, auth_log,
    current_values, resolved_server, env_flag, getenv, getenv_or.
  rewrite !lookup_insert_eq, !lookup_insert_ne by done.
  cbn [truthy py_all forallb py_str].
  by destruct p1, p2.
Qed.

Lemma X17_password_not_logged_witness :
  logged (get_db_config (<["MSSQL_PASSWORD" := "hunter2"]> env_sql))
  = logged (get_db_config (<["MSSQL_PASSWORD" := "correct horse"]> env_sql)).
Proof.
  apply (X17_password_not_logged env_sql "hunter2" "correct horse"); discriminate.
Defined.

(** X18: [get_db_config] reads the seven [MSSQL_] variables and nothing
    else: setting any other variable changes neither the outcome nor the
    log. *)
Theorem X18_unrelated_variable (environ : gmap string string) (k v : string) :
  ~ In k config_variables ->
  get_db_config (<[k := v]> environ) = get_db_config environ.
Proof.
  intros (? & ? & ? & ? & ? & ? & ?)%not_in_config_variables.
  unfold get_db_config, getenv, getenv_or.
  by rewrite !lookup_insert_ne by done.
Qed.

Lemma X18_unrelated_variable_witness :
  get_db_config (<["MSSQL_COMMAND" := "run"]> env_sql) = get_db_config env_sql.
Proof.
  apply (X18_unrelated_variable env_sql "MSSQL_COMMAND" "run").
  cbn [config_variables In]. intros H.
  repeat destruct H as [H|H]; first [discriminate H | destruct H].
Defined.

(** X19: [get_db_config] fails exactly when it has written a record of
    level ERROR: every failure is logged as an error, and a run that
    returns a record logs none. *)
Theorem X19_error_logged_iff_failure (environ : gmap string string) :
  (exists e, outcome (get_db_config environ) = Raise e) <->
  (exists msg, In (ERROR, msg) (logged (get_db_config environ))).
Proof.
  rewrite get_db_config_outcome, get_db_config_logged, <- auth_log_error.
  unfold resolved_log. split.
  - intros (msg & H). exists msg. rewrite !in_app_iff. auto.
  - intros (msg & H). exists msg. rewrite !in_app_iff in H.
    destruct H as [H | [H | [H | H]]]; [| | |done].
    + by apply server_log_level in H.
    + by apply values_log_level in H.
    + by apply port_log_spec in H as (p & _ & _ & _ & ? & _).
Qed.

(** X20: a returned record always has the keys [server], [database] and
    [port], and never a key outside [server], [user], [password],
    [database], [port], [tds_version] and [encrypt]. *)
Theorem X20_record_keys (environ : gmap string string) (cfg : gmap string pyval) :
  outcome (get_db_config environ) = Ok cfg ->
  is_Some (cfg !! "server") /\ is_Some (cfg !! "database")
  /\ is_Some (cfg !! "port") /\
  (forall k, is_Some (cfg !! k) ->
     In k ["server"; "user"; "password"; "database"; "port";
           "tds_version"; "encrypt"]).
Proof.
  intros Hrun. split; [|split; [|split]].
  - by rewrite (get_db_config_server _ _ Hrun).
  - by destruct (success_database_lookup environ cfg Hrun) as (d & ->).
  - by rewrite (get_db_config_port _ _ Hrun).
  - intros k [v Hk]. cbn [In].
    destruct (decide (k = "server")) as [|?]; [auto|].
    destruct (decide (k = "user")) as [|?]; [auto|].
    destruct (decide (k = "password")) as [|?]; [auto 6|].
    destruct (decide (k = "database")) as [|?]; [auto 6|].
    destruct (decide (k = "port")) as [|?]; [auto 7|].
    destruct (decide (k = "tds_version")) as [|?]; [auto 8|].
    destruct (decide (k = "encrypt")) as [|?]; [auto 9|].
    exfalso.
    assert (cfg !! k = None) as Hnone; [|congruence].
    assert (with_encrypt environ !! k = None) as Hw.
    { rewrite lookup_with_encrypt, lookup_with_port by done.
      unfold initial_config. by rewrite !lookup_insert_ne by done. }
    destruct (success_inv _ _ Hrun) as [(_ & _ & ->) | (_ & _ & ->)]; [|done].
    by rewrite !lookup_delete_ne.
Qed.

Lemma X20_record_keys_witness :
  is_Some (with_encrypt env_sql !! "server")
  /\ is_Some (with_encrypt env_sql !! "database")
  /\ is_Some (with_encrypt env_sql !! "port") /\
  (forall k, is_Some (with_encrypt env_sql !! k) ->
     In k ["server"; "user"; "password"; "database"; "port";
           "tds_version"; "encrypt"]).
Proof.
  apply (X20_record_keys env_sql (with_encrypt env_sql)).
  apply sql_run_record; vm_compute; reflexivity.
Defined.

(** X21: the authentication mode touches the credential keys only: when
    an environment resolves under SQL authentication, the same
    environment with [MSSQL_WINDOWS_AUTH] switched on resolves to the same
    record without its [user] and [password] keys. *)
Theorem X21_auth_mode_changes_credentials_only (environ : gmap string string)
    (cfg : gmap string pyval) (off on : string) :
  Str.lower off <> "true" -> Str.lower on = "true" ->
  outcome (get_db_config (<["MSSQL_WINDOWS_AUTH" := off]> environ)) = Ok cfg ->
  outcome (get_db_config (<["MSSQL_WINDOWS_AUTH" := on]> environ))
  = Ok (delete "password" (delete "user" cfg)).
Proof.
  intros Hoff Hon Hrun.
  assert (env_flag (<["MSSQL_WINDOWS_AUTH" := off]> environ)
            "MSSQL_WINDOWS_AUTH" "false" = false) as Hflag.
  { apply env_flag_false. unfold getenv_or. by rewrite lookup_insert_eq. }
  destruct (success_inv _ _ Hrun) as [(Hw & _) | (_ & _ & ->)]; [congruence|].
  pose proof (success_database _ _ Hrun) as Hdb.
  rewrite get_db_config_outcome. unfold resolved.
  assert (env_flag (<["MSSQL_WINDOWS_AUTH" := on]> environ)
            "MSSQL_WINDOWS_AUTH" "false" = true) as ->.
  { apply env_flag_true. unfold getenv_or. by rewrite lookup_insert_eq. }
  rewrite truthy_getenv.
  unfold is_missing in *. rewrite lookup_insert_ne in Hdb |- * by done.
  rewrite Hdb. cbn [negb].
  by rewrite !with_encrypt_frame by done.
Qed.

Lemma X21_auth_mode_changes_credentials_only_witness :
  outcome (get_db_config (<["MSSQL_WINDOWS_AUTH" := "True"]> env_sql))
  = Ok (delete "password" (delete "user" (with_encrypt env_sql))).
Proof.
  apply (X21_auth_mode_changes_credentials_only env_sql (with_encrypt env_sql)
           "no" "True").
  - vm_compute. discriminate.
  - reflexivity.
  - rewrite sql_run_record by (vm_compute; reflexivity).
    by rewrite with_encrypt_frame.
Defined.
